(** * Keyboard input of less (ttyin.c): a shallow embedding and its properties

    The file embeds the three parts of [ttyin.c]:
    - [Locator]: [open_tty_device] and [open_tty] (the device search);
    - [Session]: [open_getchr], [close_getchr] and [pclose] (the console
      mode handling of the WIN32C build, a plain open elsewhere);
    - [Getchr]: [getchr], for the builds that read through [iread]
      (MSDOS_COMPILER is 0), with the alternate command source and the
      standard error fallback of the __APPLE__ build.

    C integers are [Z]; a [char] is the signed 8-bit value, an
    [unsigned char] is a [byte]; calls into the operating system and into
    the rest of less are answered by scripts held in the world, and every
    such call is recorded in a trace. *)

From Stdlib Require Import ZArith List Bool String Ascii Lia.
From Stdlib.Strings Require Import Byte.
Import ListNotations.
Local Open Scope Z_scope.

(** ** C characters *)

Module CChar.

(** Conversion of an integer to [char] (signed, 8 bits, wrap-around). *)
Definition to_char (z : Z) : Z := (z + 128) mod 256 - 128.

(** Value of an [unsigned char]. *)
Definition uchar_val (b : byte) : Z := Z.of_N (Byte.to_N b).

(** [(char) uc]. *)
Definition char_of_byte (b : byte) : Z := to_char (uchar_val b).

(** The [char] held in a string cell. *)
Definition char_of_ascii (a : ascii) : Z := to_char (Z.of_N (N_of_ascii a)).

(** [c & 0377], also written [c & 0xFF]. *)
Definition low8 (c : Z) : Z := Z.land c 255.

(** The character constants of [getchr]: ['\0'], ['\n'] and ['\340']. *)
Definition NUL : Z := 0.
Definition NEWLINE : Z := 10.
Definition C340 : Z := to_char 224.

End CChar.
Import CChar.

(** ** getchr *)

Module Getchr.

(** [getchr] is compiled differently under [__APPLE__] and [LESSTEST], and
    uses constants that [less.h], [stdio.h] and [poll.h] define.  Those
    headers are not part of the file, so the constants are fields of the
    build and the properties below hold for every value of them that the
    stated hypotheses allow. *)
Record build := {
  APPLE : bool;          (* __APPLE__ is defined *)
  LESSTEST : bool;       (* LESSTEST is non-zero *)
  READ_INTR : Z;         (* less.h: what iread returns when interrupted *)
  C_EOF : Z;             (* stdio.h: EOF *)
  QUIT_ERROR : Z;        (* less.h: exit status of a fatal error *)
  POLLRDNORM : Z;        (* poll.h *)
  LESS_DUMP_CHAR : Z     (* less.h: the byte that asks for a screen dump *)
}.

(** The macOS build: values of the headers shipped with less and macOS. *)
Definition macos : build :=
  {| APPLE := true; LESSTEST := false; READ_INTR := -2; C_EOF := -1;
     QUIT_ERROR := 1; POLLRDNORM := 64; LESS_DUMP_CHAR := 29 |}.

(** The same build with the test harness compiled in. *)
Definition macos_lesstest : build :=
  {| APPLE := true; LESSTEST := true; READ_INTR := -2; C_EOF := -1;
     QUIT_ERROR := 1; POLLRDNORM := 64; LESS_DUMP_CHAR := 29 |}.

(** Calls that leave the file.  [EvError] stands for a call of [error()],
    the general error report; no function below emits it. *)
Inductive event :=
| EvFlush                      (* flush() *)
| EvIread (fd : Z)             (* iread(tty, &uc, sizeof(char)) *)
| EvPoll                       (* poll(&pfd, 1, 0) on STDERR_FILENO *)
| EvReadStderr                 (* read(STDERR_FILENO, errbuf, sizeof(errbuf)) *)
| EvDumpScreen                 (* dump_screen() *)
| EvQuit (status : Z)          (* quit(status) *)
| EvError.                     (* error(...) *)

(** Answer of one [poll] call: its return value and [pfd.revents]. *)
Record poll_reply := { poll_result : Z; poll_revents : Z }.

(** Answer of one [read] on standard error: its return value and the
    bytes it stored at the start of the buffer. *)
Record read_reply := { rd_result : Z; rd_data : list byte }.

(** Answer of one [iread]: its return value and the content of [uc]
    afterwards (whatever [uc] held when nothing was stored). *)
Record iread_reply := { ir_result : Z; ir_uc : byte }.

Record world := {
  (* variables of the program *)
  active_dashp_command : option string;   (* char *, None is NULL *)
  add_newline : Z;
  is_tty : Z;
  less_is_more : Z;
  tty : Z;
  (* statics of getchr *)
  use_stderr : bool;
  errbuf : list byte;
  errpos : Z;
  errbuf_sz : Z;
  (* what the environment will answer, and what was called so far *)
  poll_in : list poll_reply;
  stderr_in : list read_reply;
  tty_in : list iread_reply;
  trace : list event
}.

Definition set_active_dashp_command (v : option string) (w : world) : world :=
  {| active_dashp_command := v; add_newline := add_newline w; is_tty := is_tty w;
     less_is_more := less_is_more w; tty := tty w; use_stderr := use_stderr w;
     errbuf := errbuf w; errpos := errpos w; errbuf_sz := errbuf_sz w;
     poll_in := poll_in w; stderr_in := stderr_in w; tty_in := tty_in w;
     trace := trace w |}.

Definition set_add_newline (v : Z) (w : world) : world :=
  {| active_dashp_command := active_dashp_command w; add_newline := v; is_tty := is_tty w;
     less_is_more := less_is_more w; tty := tty w; use_stderr := use_stderr w;
     errbuf := errbuf w; errpos := errpos w; errbuf_sz := errbuf_sz w;
     poll_in := poll_in w; stderr_in := stderr_in w; tty_in := tty_in w;
     trace := trace w |}.

Definition set_use_stderr (v : bool) (w : world) : world :=
  {| active_dashp_command := active_dashp_command w; add_newline := add_newline w;
     is_tty := is_tty w; less_is_more := less_is_more w; tty := tty w; use_stderr := v;
     errbuf := errbuf w; errpos := errpos w; errbuf_sz := errbuf_sz w;
     poll_in := poll_in w; stderr_in := stderr_in w; tty_in := tty_in w;
     trace := trace w |}.

Definition set_errpos (v : Z) (w : world) : world :=
  {| active_dashp_command := active_dashp_command w; add_newline := add_newline w;
     is_tty := is_tty w; less_is_more := less_is_more w; tty := tty w;
     use_stderr := use_stderr w; errbuf := errbuf w; errpos := v; errbuf_sz := errbuf_sz w;
     poll_in := poll_in w; stderr_in := stderr_in w; tty_in := tty_in w;
     trace := trace w |}.

(** [poll]: the next answer is taken and the call recorded. *)
Definition took_poll (rest : list poll_reply) (w : world) : world :=
  {| active_dashp_command := active_dashp_command w; add_newline := add_newline w;
     is_tty := is_tty w; less_is_more := less_is_more w; tty := tty w;
     use_stderr := use_stderr w; errbuf := errbuf w; errpos := errpos w;
     errbuf_sz := errbuf_sz w;
     poll_in := rest; stderr_in := stderr_in w; tty_in := tty_in w;
     trace := trace w ++ [EvPoll] |}.

(** The buffer after [read] stored [data] at its start. *)
Definition store (data buf : list byte) : list byte :=
  data ++ skipn (List.length data) buf.

(** [errbuf_sz = read(STDERR_FILENO, errbuf, sizeof(errbuf))]. *)
Definition took_read (r : read_reply) (rest : list read_reply) (w : world) : world :=
  {| active_dashp_command := active_dashp_command w; add_newline := add_newline w;
     is_tty := is_tty w; less_is_more := less_is_more w; tty := tty w;
     use_stderr := use_stderr w; errbuf := store (rd_data r) (errbuf w);
     errpos := errpos w; errbuf_sz := rd_result r;
     poll_in := poll_in w; stderr_in := rest; tty_in := tty_in w;
     trace := trace w ++ [EvReadStderr] |}.

(** [flush(); result = iread(tty, &uc, sizeof(char))] returned. *)
Definition took_iread (rest : list iread_reply) (w : world) : world :=
  {| active_dashp_command := active_dashp_command w; add_newline := add_newline w;
     is_tty := is_tty w; less_is_more := less_is_more w; tty := tty w;
     use_stderr := use_stderr w; errbuf := errbuf w; errpos := errpos w;
     errbuf_sz := errbuf_sz w;
     poll_in := poll_in w; stderr_in := stderr_in w; tty_in := rest;
     trace := trace w ++ [EvFlush; EvIread (tty w)] |}.

(** A call that only leaves a mark in the trace. *)
Definition log (e : event) (w : world) : world :=
  {| active_dashp_command := active_dashp_command w; add_newline := add_newline w;
     is_tty := is_tty w; less_is_more := less_is_more w; tty := tty w;
     use_stderr := use_stderr w; errbuf := errbuf w; errpos := errpos w;
     errbuf_sz := errbuf_sz w;
     poll_in := poll_in w; stderr_in := stderr_in w; tty_in := tty_in w;
     trace := trace w ++ [e] |}.

(** How a call of [getchr] ends: it returns a value, it calls [quit]
    (which ends the process), or it is still waiting in a system call
    because the script of the environment has no further answer. *)
Inductive outcome :=
| Returned (v : Z) (w : world)
| Quit (status : Z) (w : world)
| Blocked (w : world).

(** [*p] and [p + 1] for a pointer into a NUL-terminated string. *)
Definition deref (p : string) : Z :=
  match p with
  | EmptyString => NUL
  | String a _ => char_of_ascii a
  end.

Definition advance (p : string) : string :=
  match p with
  | EmptyString => EmptyString
  | String _ rest => rest
  end.

(** Lines 203-215: the alternate command source. *)
Inductive dashp_result :=
| DashpReturn (v : Z) (w : world)
| DashpFallthrough (w : world).

Definition getchr_dashp (w : world) : dashp_result :=
  match active_dashp_command w with
  | None => DashpFallthrough w
  | Some p =>
      let c := deref p in
      let w1 := set_active_dashp_command (Some (advance p)) w in
      if c =? NUL then
        let w2 := set_active_dashp_command None w1 in
        if add_newline w2 =? 0 then DashpFallthrough w2
        else DashpReturn (low8 NEWLINE) (set_add_newline 0 w2)
      else DashpReturn (low8 c) w1
  end.

(** Lines 217-261: the standard error fallback of the __APPLE__ build. *)
Inductive stderr_result :=
| ErrReturn (v : Z) (w : world)      (* return (EOF) *)
| ErrOut (c : Z) (w : world)         (* goto out, with c *)
| ErrNoStderr (w : world)            (* goto no_stderr, or block not entered *)
| ErrBlocked (w : world).

Definition stderr_wanted (B : build) (w : world) : bool :=
  APPLE B && use_stderr w && negb (is_tty w =? 0) && negb (less_is_more w =? 0).

(** Lines 227-246: read more if the buffer ran out. *)
Inductive refill_result :=
| RefillDone (w : world)
| RefillNoStderr (w : world)
| RefillBlocked (w : world).

Definition stderr_refill (B : build) (w : world) : refill_result :=
  if errpos w =? errbuf_sz w then
    match poll_in w with
    | [] => RefillBlocked w
    | p :: polls =>
        let w1 := took_poll polls w in
        if (poll_result p <=? 0) || (Z.land (poll_revents p) (POLLRDNORM B) =? 0) then
          RefillNoStderr (set_use_stderr false w1)
        else
          match stderr_in w1 with
          | [] => RefillBlocked w1
          | r :: reads =>
              let w2 := took_read r reads w1 in
              RefillDone (if errbuf_sz w2 >? 0 then set_errpos 0 w2 else w2)
          end
    end
  else RefillDone w.

Definition getchr_stderr (B : build) (w : world) : stderr_result :=
  if stderr_wanted B w then
    match stderr_refill B w with
    | RefillBlocked w' => ErrBlocked w'
    | RefillNoStderr w' => ErrNoStderr w'
    | RefillDone w' =>
        if errbuf_sz w' <=? 0 then
          if (errpos w' =? 0) || (errbuf_sz w' <? 0) then
            ErrNoStderr (set_use_stderr false w')
          else ErrReturn (C_EOF B) w'
        else
          let c := char_of_byte (nth (Z.to_nat (errpos w')) (errbuf w') x00) in
          ErrOut c (set_errpos (errpos w' + 1) w')
    end
  else ErrNoStderr w.

(** Lines 265-346: the do-while loop over [iread].  One iteration takes
    one answer of the device; the loop is written by recursion on the
    answers still to come, which are [tty_in w]. *)
Fixpoint getchr_loop (B : build) (reads : list iread_reply) (w : world) : outcome :=
  match reads with
  | [] => Blocked (log EvFlush w)
  | r :: rest =>
      let w1 := took_iread rest w in
      let result := ir_result r in
      let c := char_of_byte (ir_uc r) in
      if result =? READ_INTR B then Returned (READ_INTR B) w1
      else if result <? 0 then Quit (QUIT_ERROR B) (log (EvQuit (QUIT_ERROR B)) w1)
      else if LESSTEST B && (c =? LESS_DUMP_CHAR B) then
        (* dump_screen(); result = 0; continue; *)
        getchr_loop B rest (log EvDumpScreen w1)
      else
        let c := if c =? NUL then C340 else c in
        if result =? 1 then Returned (low8 c) w1
        else getchr_loop B rest w1
  end.

(** Lines 217-351: everything after the alternate command source. *)
Definition getchr_input (B : build) (w : world) : outcome :=
  match getchr_stderr B w with
  | ErrReturn v w' => Returned v w'
  | ErrOut c w' => Returned (low8 c) w'
  | ErrNoStderr w' => getchr_loop B (tty_in w') w'
  | ErrBlocked w' => Blocked w'
  end.

(** [getchr]. *)
Definition getchr (B : build) (w : world) : outcome :=
  match getchr_dashp w with
  | DashpReturn v w' => Returned v w'
  | DashpFallthrough w' => getchr_input B w'
  end.

(** The world of an outcome. *)
Definition world_of (o : outcome) : world :=
  match o with
  | Returned _ w | Quit _ w | Blocked w => w
  end.

(** Successive calls of [getchr]: the outcomes of up to [n] calls, each
    made in the world the previous one left; the run stops after a call
    that does not return. *)
Fixpoint calls (B : build) (n : nat) (w : world) : list outcome :=
  match n with
  | O => []
  | S k =>
      let o := getchr B w in
      o :: match o with
           | Returned _ w' => calls B k w'
           | _ => []
           end
  end.

(** A world before any call, with nothing pending. *)
Definition idle (polls : list poll_reply) (errs : list read_reply)
  (keys : list iread_reply) : world :=
  {| active_dashp_command := None; add_newline := 0; is_tty := 1; less_is_more := 1;
     tty := 3; use_stderr := true; errbuf := repeat x00 512; errpos := 0;
     errbuf_sz := 0; poll_in := polls; stderr_in := errs; tty_in := keys;
     trace := [] |}.

(** [getchr] gets as far as the device loop, in world [w2]: the alternate
    source let the call through and the fallback was not used. *)
Definition reaches_device (B : build) (w w2 : world) : Prop :=
  exists w1, getchr_dashp w = DashpFallthrough w1 /\ getchr_stderr B w1 = ErrNoStderr w2.

(** The world in which the loop goes round again after an attempt that
    did not end the call. *)
Definition retried (B : build) (r : iread_reply) (rest : list iread_reply) (w : world)
  : world :=
  if LESSTEST B && (char_of_byte (ir_uc r) =? LESS_DUMP_CHAR B)
  then log EvDumpScreen (took_iread rest w)
  else took_iread rest w.

(** A world in which only the device is in use: the keys to come are
    [keys], nothing is pending and the fallback is already off. *)
Definition keyboard (keys : list iread_reply) : world :=
  {| active_dashp_command := None; add_newline := 0; is_tty := 1; less_is_more := 1;
     tty := 3; use_stderr := false; errbuf := repeat x00 512; errpos := 0;
     errbuf_sz := 0; poll_in := []; stderr_in := []; tty_in := keys;
     trace := [] |}.

(** [w'] is a world of the same process at a later time: reached from [w]
    by calls of [getchr] that returned and by the rest of the program,
    which cannot touch the statics of [getchr]. *)
Inductive later (B : build) (w : world) : world -> Prop :=
| later_now : later B w w
| later_call (w1 w2 : world) (v : Z) :
    later B w w1 -> getchr B w1 = Returned v w2 -> later B w w2
| later_other (w1 w2 : world) :
    later B w w1 ->
    use_stderr w2 = use_stderr w1 -> errbuf w2 = errbuf w1 ->
    errpos w2 = errpos w1 -> errbuf_sz w2 = errbuf_sz w1 ->
    later B w w2.

(** The part of the world the device loop never writes. *)
Definition beside_device (w w' : world) : Prop :=
  active_dashp_command w' = active_dashp_command w
  /\ add_newline w' = add_newline w
  /\ use_stderr w' = use_stderr w
  /\ poll_in w' = poll_in w
  /\ stderr_in w' = stderr_in w.

(** [poll] reported standard error readable. *)
Definition readable (B : build) (p : poll_reply) : Prop :=
  0 < poll_result p /\ Z.land (poll_revents p) (POLLRDNORM B) <> 0.

End Getchr.

(** ** open_tty *)

Module Locator.

(** Switches that select the code of [open_tty]. *)
Record build := {
  LESSTEST : bool;        (* LESSTEST is non-zero *)
  HAVE_TTYNAME : bool;    (* HAVE_TTYNAME is non-zero *)
  OS2 : bool;             (* __open() instead of open() *)
  MVS : bool              (* __MVS__ is defined *)
}.

(** The operating system: what the [n]-th call of [open] answers for a
    path (a descriptor, or a negative value), and [ttyname]. *)
Record system := {
  sys_open : nat -> string -> Z;
  sys_ttyname : Z -> option string
}.

Inductive call :=
| COpen (os2 : bool) (dev : string)    (* open(dev, OPEN_READ), __open on OS/2 *)
| CTtyname (fd : Z)                    (* ttyname(fd) *)
| CFcntl (fd : Z).                     (* fcntl(fd, F_CONTROL_CVT, &cvtreq) *)

Record state := {
  ttyin_name : option string;          (* char *ttyin_name, None is NULL *)
  made : list call                     (* calls so far, oldest first *)
}.

Definition is_open (c : call) : bool :=
  match c with COpen _ _ => true | _ => false end.

(** How many [open] calls were made so far. *)
Definition opens (st : state) : nat := List.length (filter is_open (made st)).

Definition note (c : call) (st : state) : state :=
  {| ttyin_name := ttyin_name st; made := made st ++ [c] |}.

Definition is_lesstest (st : state) : bool :=
  match ttyin_name st with Some _ => true | None => false end.

Definition open_tty_device (B : build) (S : system) (dev : string) (st : state)
  : Z * state :=
  (sys_open S (opens st) dev, note (COpen (OS2 B) dev) st).

Definition dev_tty : string := "/dev/tty".

Definition open_tty (B : build) (S : system) (st : state) : Z * state :=
  let fd := -1 in
  let '(fd, st) :=
    if LESSTEST B then
      if is_lesstest st then
        match ttyin_name st with
        | Some name => open_tty_device B S name st
        | None => (fd, st)       (* not reached: is_lesstest says non-NULL *)
        end
      else (fd, st)
    else (fd, st) in
  let '(fd, st) :=
    if HAVE_TTYNAME B then
      if fd <? 0 then
        let st := note (CTtyname 2) st in
        match sys_ttyname S 2 with
        | Some dev => open_tty_device B S dev st
        | None => (fd, st)
        end
      else (fd, st)
    else (fd, st) in
  let '(fd, st) :=
    if fd <? 0 then open_tty_device B S dev_tty st else (fd, st) in
  let fd := if fd <? 0 then 2 else fd in
  let st := if MVS B then note (CFcntl fd) st else st in
  (fd, st).

(** The paths [open_tty] may try, in the order the claim lists them. *)
Definition candidates (B : build) (S : system) (st : state) : list string :=
  (if LESSTEST B then match ttyin_name st with Some n => [n] | None => [] end else [])
  ++ (if HAVE_TTYNAME B then match sys_ttyname S 2 with Some d => [d] | None => [] end
      else [])
  ++ [dev_tty].

(** Trying paths in order, the [k]-th [open] call first: the paths tried
    and the first descriptor that is not negative, if any. *)
Fixpoint first_openable (S : system) (k : nat) (paths : list string)
  : list string * option Z :=
  match paths with
  | [] => ([], None)
  | p :: rest =>
      let fd := sys_open S k p in
      if fd <? 0 then
        let (tried, r) := first_openable S (Datatypes.S k) rest in (p :: tried, r)
      else ([p], Some fd)
  end.

(** The paths of the [open] calls in a list of calls. *)
Fixpoint opened (cs : list call) : list string :=
  match cs with
  | [] => []
  | COpen _ dev :: rest => dev :: opened rest
  | _ :: rest => opened rest
  end.

End Locator.

(** ** open_getchr, close_getchr and pclose *)

Module Session.

(** The values of MSDOS_COMPILER the file distinguishes. *)
Inductive compiler :=
| NO_MSDOS        (* MSDOS_COMPILER is 0 *)
| WIN32C
| DJGPPC
| OTHER_MSDOS.    (* any other non-zero value *)

(** [windows.h] is not part of the file; its two flags used here are
    fields of the build.  The other flags are defined in the file. *)
Record build := {
  MSDOS_COMPILER : compiler;
  ENABLE_PROCESSED_INPUT : Z;
  ENABLE_MOUSE_INPUT : Z;
  unix : Locator.build
}.

Definition ENABLE_EXTENDED_FLAGS : Z := 0x80.
Definition ENABLE_QUICK_EDIT_MODE : Z := 0x40.
Definition ENABLE_VIRTUAL_TERMINAL_INPUT : Z := 0x0200.

(** A DWORD: 32 bits, unsigned. *)
Definition dword (z : Z) : Z := z mod 2 ^ 32.

(** [x & ~flag] on DWORDs. *)
Definition clear (x flag : Z) : Z := dword (Z.land x (Z.lnot flag)).

Inductive call :=
| CCreateFile                          (* CreateFile("CONIN$", ...) *)
| CGetConsoleMode (h : Z)
| CSetConsoleMode (h : Z) (mode : Z)
| CCloseHandle (h : Z)
| CPclose                              (* _pclose(f) *)
| CDup (fd : Z)
| CClose (fd : Z)
| COpenCon                             (* open("CON", OPEN_READ) *)
| CSetCtrlC (v : Z).                   (* __djgpp_set_ctrl_c(v) *)

Record state := {
  (* variables of the program *)
  tty : Z;
  init_console_input_mode : Z;
  curr_console_input_mode : Z;
  base_console_input_mode : Z;
  mouse_console_input_mode : Z;
  fd0 : Z;
  loc : Locator.state;
  (* the operating system *)
  console_mode : Z;          (* the input mode of the console *)
  conin : option Z;          (* the handle CreateFile gives, None when it fails *)
  conin_open : bool;         (* that handle was given out and not yet closed *)
  dup0 : Z;                  (* what dup(0) answers *)
  con : Z;                   (* what open("CON", OPEN_READ) answers *)
  made : list call
}.

Definition INVALID_HANDLE_VALUE : Z := -1.

Definition note (c : call) (s : state) : state :=
  {| tty := tty s; init_console_input_mode := init_console_input_mode s;
     curr_console_input_mode := curr_console_input_mode s;
     base_console_input_mode := base_console_input_mode s;
     mouse_console_input_mode := mouse_console_input_mode s;
     fd0 := fd0 s; loc := loc s; console_mode := console_mode s; conin := conin s;
     conin_open := conin_open s; dup0 := dup0 s; con := con s;
     made := made s ++ [c] |}.

Definition set_tty (v : Z) (s : state) : state :=
  {| tty := v; init_console_input_mode := init_console_input_mode s;
     curr_console_input_mode := curr_console_input_mode s;
     base_console_input_mode := base_console_input_mode s;
     mouse_console_input_mode := mouse_console_input_mode s;
     fd0 := fd0 s; loc := loc s; console_mode := console_mode s; conin := conin s;
     conin_open := conin_open s; dup0 := dup0 s; con := con s; made := made s |}.

Definition set_modes (init curr base mouse : Z) (s : state) : state :=
  {| tty := tty s; init_console_input_mode := init;
     curr_console_input_mode := curr;
     base_console_input_mode := base;
     mouse_console_input_mode := mouse;
     fd0 := fd0 s; loc := loc s; console_mode := console_mode s; conin := conin s;
     conin_open := conin_open s; dup0 := dup0 s; con := con s; made := made s |}.

Definition set_fd0 (v : Z) (s : state) : state :=
  {| tty := tty s; init_console_input_mode := init_console_input_mode s;
     curr_console_input_mode := curr_console_input_mode s;
     base_console_input_mode := base_console_input_mode s;
     mouse_console_input_mode := mouse_console_input_mode s;
     fd0 := v; loc := loc s; console_mode := console_mode s; conin := conin s;
     conin_open := conin_open s; dup0 := dup0 s; con := con s; made := made s |}.

Definition set_loc (v : Locator.state) (s : state) : state :=
  {| tty := tty s; init_console_input_mode := init_console_input_mode s;
     curr_console_input_mode := curr_console_input_mode s;
     base_console_input_mode := base_console_input_mode s;
     mouse_console_input_mode := mouse_console_input_mode s;
     fd0 := fd0 s; loc := v; console_mode := console_mode s; conin := conin s;
     conin_open := conin_open s; dup0 := dup0 s; con := con s; made := made s |}.

Definition set_console (mode : Z) (is_open : bool) (s : state) : state :=
  {| tty := tty s; init_console_input_mode := init_console_input_mode s;
     curr_console_input_mode := curr_console_input_mode s;
     base_console_input_mode := base_console_input_mode s;
     mouse_console_input_mode := mouse_console_input_mode s;
     fd0 := fd0 s; loc := loc s; console_mode := mode; conin := conin s;
     conin_open := is_open; dup0 := dup0 s; con := con s; made := made s |}.

(** [h] is the open handle of the console. *)
Definition is_console (h : Z) (s : state) : bool :=
  conin_open s && match conin s with Some c => h =? c | None => false end.

(** [CreateFile("CONIN$", ...)]: the console handle, or
    INVALID_HANDLE_VALUE. *)
Definition CreateFile (s : state) : Z * state :=
  let s := note CCreateFile s in
  match conin s with
  | Some h => (h, set_console (console_mode s) true s)
  | None => (INVALID_HANDLE_VALUE, s)
  end.

(** [GetConsoleMode(h, &m)]: the mode of the console when [h] is its
    handle; otherwise the call fails and [m] keeps its value [old]. *)
Definition GetConsoleMode (h old : Z) (s : state) : Z * state :=
  ((if is_console h s then console_mode s else old), note (CGetConsoleMode h) s).

(** [SetConsoleMode(h, m)]: sets the mode of the console when [h] is its
    handle; otherwise the call fails and changes nothing. *)
Definition SetConsoleMode (h m : Z) (s : state) : state :=
  let s' := note (CSetConsoleMode h m) s in
  if is_console h s then set_console m (conin_open s') s' else s'.

Definition CloseHandle (h : Z) (s : state) : state :=
  let s' := note (CCloseHandle h) s in
  if is_console h s then set_console (console_mode s') false s' else s'.

Definition open_getchr (B : build) (S : Locator.system) (s : state) : state :=
  match MSDOS_COMPILER B with
  | WIN32C =>
      let '(h, s) := CreateFile s in
      let s := set_tty h s in
      let '(init, s) := GetConsoleMode (tty s) (init_console_input_mode s) s in
      let base := clear (Z.lor init (ENABLE_PROCESSED_INPUT B)) ENABLE_VIRTUAL_TERMINAL_INPUT in
      let mouse :=
        clear (Z.lor (Z.lor base (ENABLE_MOUSE_INPUT B)) ENABLE_EXTENDED_FLAGS)
              ENABLE_QUICK_EDIT_MODE in
      let s := set_modes init base base mouse s in
      SetConsoleMode (tty s) (curr_console_input_mode s) s
  | NO_MSDOS =>
      let '(fd, l) := Locator.open_tty (unix B) S (loc s) in
      set_tty fd (set_loc l s)
  | c =>
      let s := set_fd0 (dup0 s) (note (CDup 0) s) in
      let s := note (CClose 0) s in
      let s := set_tty (con s) (note COpenCon s) in
      match c with
      | DJGPPC => note (CSetCtrlC 1) s
      | _ => s
      end
  end.

Definition close_getchr (B : build) (s : state) : state :=
  match MSDOS_COMPILER B with
  | WIN32C =>
      let s := SetConsoleMode (tty s) (init_console_input_mode s) s in
      CloseHandle (tty s) s
  | _ => s
  end.

(** [pclose] of the WIN32C build (the other builds do not define it). *)
Definition pclose (s : state) : state :=
  let s := note CPclose s in
  SetConsoleMode (tty s) (curr_console_input_mode s) s.

(** What may happen between [open_getchr] and [close_getchr] on the
    WIN32C build: the mode is switched, a pipe is closed, or a child
    process sharing the console leaves it in some mode of its own. *)
Inductive mode_request := BaseMode | ExtendedMode.

(** Modelled from the spec: the mode switch, which lives outside this file
    ("switches between base mode and an extended mode"): the requested
    mode becomes the current one and is applied to the console. *)
Definition set_mode (m : mode_request) (s : state) : state :=
  let curr := match m with
              | BaseMode => base_console_input_mode s
              | ExtendedMode => mouse_console_input_mode s
              end in
  let s := set_modes (init_console_input_mode s) curr (base_console_input_mode s)
                     (mouse_console_input_mode s) s in
  SetConsoleMode (tty s) (curr_console_input_mode s) s.

Inductive action :=
| ASetMode (m : mode_request)
| APclose
| AChildLeft (mode : Z).

Definition act (a : action) (s : state) : state :=
  match a with
  | ASetMode m => set_mode m s
  | APclose => pclose s
  | AChildLeft m => set_console m (conin_open s) s
  end.

Definition session (acts : list action) (s : state) : state :=
  fold_left (fun s a => act a s) acts s.

(** What no action between open and close changes. *)
Definition session_fixed (s s' : state) : Prop :=
  tty s' = tty s
  /\ init_console_input_mode s' = init_console_input_mode s
  /\ conin s' = conin s
  /\ conin_open s' = conin_open s.

(** A WIN32C build with the flag values of the Windows headers, and a
    console in the mode 0x1F7 that can be opened as handle 100. *)
Definition win32 : build :=
  {| MSDOS_COMPILER := WIN32C; ENABLE_PROCESSED_INPUT := 0x1; ENABLE_MOUSE_INPUT := 0x10;
     unix := {| Locator.LESSTEST := false; Locator.HAVE_TTYNAME := false;
                Locator.OS2 := false; Locator.MVS := false |} |}.

Definition console0 : state :=
  {| tty := 0; init_console_input_mode := 0; curr_console_input_mode := 0;
     base_console_input_mode := 0; mouse_console_input_mode := 0; fd0 := 0;
     loc := {| Locator.ttyin_name := None; Locator.made := [] |};
     console_mode := 0x1F7; conin := Some 100; conin_open := false;
     dup0 := 0; con := 0; made := [] |}.

Definition no_system : Locator.system :=
  {| Locator.sys_open := fun _ _ => -1; Locator.sys_ttyname := fun _ => None |}.

End Session.

(** ** Runs of calls, and what a call adds to the trace *)

Module Runs.

Import Getchr.

(** The value a call returned, if it returned. *)
Definition value_of (o : outcome) : option Z :=
  match o with
  | Returned v _ => Some v
  | _ => None
  end.

(** The world after [n] calls that all returned. *)
Fixpoint after (B : build) (n : nat) (w : world) : option world :=
  match n with
  | O => Some w
  | S k =>
      match getchr B w with
      | Returned _ w' => after B k w'
      | _ => None
      end
  end.

(** Walking a string with [c = *p++]: each character as [getchr] returns
    it, with the cursor left behind it. *)
Fixpoint cursor_steps (p : string) : list (Z * string) :=
  match p with
  | EmptyString => []
  | String a rest => (low8 (char_of_ascii a), rest) :: cursor_steps rest
  end.

(** No cell of the string holds the [char] 0. *)
Fixpoint no_nul (p : string) : Prop :=
  match p with
  | EmptyString => True
  | String a rest => char_of_ascii a <> 0 /\ no_nul rest
  end.

(** [sizeof(errbuf)]. *)
Definition ERRBUF_SIZE : Z := 512.

(** The statics of the fallback are consistent: the position is not
    negative and, while the buffer holds bytes, lies within them, and the
    buffer never claims more than its size. *)
Definition fallback_inv (w : world) : Prop :=
  0 <= errpos w /\ (0 < errbuf_sz w -> errpos w <= errbuf_sz w <= ERRBUF_SIZE).

(** [read] never reports more than it was asked for. *)
Definition reads_fit (w : world) : Prop :=
  Forall (fun r => rd_result r <= ERRBUF_SIZE) (stderr_in w).


(** Every [iread] in a list of events comes directly after a [flush];
    [fresh] tells whether the event before the list was a [flush]. *)
Fixpoint flushed (fresh : bool) (evs : list event) : bool :=
  match evs with
  | [] => true
  | EvFlush :: rest => flushed true rest
  | EvIread _ :: rest => fresh && flushed false rest
  | _ :: rest => flushed false rest
  end.

Definition is_quit (e : event) : bool :=
  match e with EvQuit _ => true | _ => false end.



End Runs.

(** ** default_wheel_lines *)

Module Wheel.

(** A C [int] (32 bits, signed) holding the bits of [z]. *)
Definition to_int (z : Z) : Z := (z + 2 ^ 31) mod 2 ^ 32 - 2 ^ 31.

(** Lines 179-190.  [spi] is what
    [SystemParametersInfo(SPI_GETWHEELSCROLLLINES, 0, &lines, 0)] does:
    [Some v] when it succeeds and stores [v] in [lines], [None] when it
    fails and leaves [lines] alone.  WHEEL_PAGESCROLL comes from
    [windows.h] and is a parameter; [lines == WHEEL_PAGESCROLL] compares
    the two as 32-bit values. *)
Definition default_wheel_lines (c : Session.compiler) (WHEEL_PAGESCROLL : Z)
    (spi : option Z) : Z :=
  let lines := 1 in
  match c with
  | Session.WIN32C =>
      match spi with
      | Some v =>
          let lines := to_int v in
          if Session.dword lines =? Session.dword WHEEL_PAGESCROLL then 3 else lines
      | None => lines
      end
  | _ => lines
  end.

End Wheel.

(** * Properties *)

(** ** Facts on C characters *)

Section CCharFacts.

Lemma uchar_val_range (b : byte) : 0 <= uchar_val b < 256.
Proof.
  unfold uchar_val. pose proof (Byte.to_N_bounded b) as Hb.
  split; [apply N2Z.is_nonneg|].
  apply (Z.le_lt_trans _ (Z.of_N 255)); [apply N2Z.inj_le; exact Hb | reflexivity].
Qed.

Lemma low8_mod (c : Z) : low8 c = c mod 256.
Proof. unfold low8. change 255 with (Z.ones 8). rewrite Z.land_ones by lia. reflexivity. Qed.

Lemma low8_to_char (z : Z) : low8 (to_char z) = z mod 256.
Proof.
  rewrite low8_mod. unfold to_char.
  rewrite Zminus_mod, Zmod_mod, <- Zminus_mod.
  replace (z + 128 - 128) with z by lia. reflexivity.
Qed.

Lemma low8_char_of_byte (b : byte) : low8 (char_of_byte b) = uchar_val b.
Proof.
  unfold char_of_byte. rewrite low8_to_char.
  apply Z.mod_small, uchar_val_range.
Qed.

Lemma char_of_byte_zero (b : byte) : char_of_byte b = 0 <-> uchar_val b = 0.
Proof.
  pose proof (uchar_val_range b) as Hr. unfold char_of_byte, to_char.
  split; intros H.
  - destruct (Z_lt_ge_dec (uchar_val b) 128) as [Hlt|Hge].
    + rewrite Z.mod_small in H by lia. lia.
    + replace (uchar_val b + 128) with ((uchar_val b - 128) + 1 * 256) in H by lia.
      rewrite Z_mod_plus_full, Z.mod_small in H by lia. lia.
  - rewrite H. reflexivity.
Qed.

Lemma to_char_range (z : Z) : -128 <= to_char z < 128.
Proof. unfold to_char. pose proof (Z.mod_pos_bound (z + 128) 256). lia. Qed.

Lemma low8_nonzero (c : Z) : -128 <= c < 128 -> c <> 0 -> low8 c <> 0.
Proof.
  intros Hr Hc. rewrite low8_mod.
  destruct (Z_lt_ge_dec c 0) as [Hneg|Hpos].
  - replace c with ((c + 256) + (-1) * 256) by lia.
    rewrite Z_mod_plus_full, Z.mod_small by lia. lia.
  - rewrite Z.mod_small by lia. exact Hc.
Qed.

Lemma low8_range (c : Z) : 0 <= low8 c < 256.
Proof. rewrite low8_mod. apply Z.mod_pos_bound. lia. Qed.

Lemma char_of_byte_range (b : byte) : -128 <= char_of_byte b < 128.
Proof. apply to_char_range. Qed.

Lemma low8_C340 : low8 C340 = 224.
Proof. reflexivity. Qed.

End CCharFacts.

(** ** getchr: the device loop *)

Import Getchr.

Lemma getchr_reaches_device (B : build) (w w2 : world) :
  reaches_device B w w2 -> getchr B w = getchr_loop B (tty_in w2) w2.
Proof.
  intros [w1 [Hd He]]. unfold getchr, getchr_input. rewrite Hd, He. reflexivity.
Qed.

(** A world with nothing pending and the fallback off reaches the loop
    unchanged. *)
Lemma reaches_device_plain (B : build) (w : world) :
  active_dashp_command w = None -> stderr_wanted B w = false ->
  reaches_device B w w.
Proof.
  intros Ha Hs. exists w. unfold getchr_dashp, getchr_stderr.
  rewrite Ha, Hs. split; reflexivity.
Qed.

(** One iteration, by the answer of [iread]. *)
Lemma loop_intr (B : build) (r : iread_reply) (rest : list iread_reply) (w : world) :
  ir_result r = READ_INTR B ->
  getchr_loop B (r :: rest) w = Returned (READ_INTR B) (took_iread rest w).
Proof. intros H. simpl. rewrite H, Z.eqb_refl. reflexivity. Qed.

Lemma loop_error (B : build) (r : iread_reply) (rest : list iread_reply) (w : world) :
  ir_result r <> READ_INTR B -> ir_result r < 0 ->
  getchr_loop B (r :: rest) w =
  Quit (QUIT_ERROR B) (log (EvQuit (QUIT_ERROR B)) (took_iread rest w)).
Proof.
  intros Hne Hneg. simpl.
  destruct (Z.eqb_spec (ir_result r) (READ_INTR B)) as [E|_]; [contradiction|].
  destruct (Z.ltb_spec (ir_result r) 0) as [_|Hge]; [reflexivity|lia].
Qed.

Lemma loop_retry (B : build) (r : iread_reply) (rest : list iread_reply) (w : world) :
  ir_result r <> READ_INTR B -> 0 <= ir_result r -> ir_result r <> 1 ->
  getchr_loop B (r :: rest) w = getchr_loop B rest (retried B r rest w).
Proof.
  intros Hne Hpos H1. simpl. unfold retried.
  destruct (Z.eqb_spec (ir_result r) (READ_INTR B)) as [E|_]; [contradiction|].
  destruct (Z.ltb_spec (ir_result r) 0) as [Hlt|_]; [lia|].
  destruct (LESSTEST B && (char_of_byte (ir_uc r) =? LESS_DUMP_CHAR B)); [reflexivity|].
  destruct (Z.eqb_spec (ir_result r) 1) as [E|_]; [contradiction|reflexivity].
Qed.


Lemma loop_byte (B : build) (r : iread_reply) (rest : list iread_reply) (w : world) :
  ir_result r <> READ_INTR B -> ir_result r = 1 ->
  LESSTEST B && (char_of_byte (ir_uc r) =? LESS_DUMP_CHAR B) = false ->
  getchr_loop B (r :: rest) w =
  Returned (low8 (if char_of_byte (ir_uc r) =? NUL then C340 else char_of_byte (ir_uc r)))
           (took_iread rest w).
Proof.
  intros Hne H1 Hd. simpl. rewrite Hd.
  destruct (Z.eqb_spec (ir_result r) (READ_INTR B)) as [E|_]; [contradiction|].
  rewrite H1. reflexivity.
Qed.

(** What the loop can return: the interrupt value, or a byte that is not
    zero. *)
Lemma loop_returns (B : build) (reads : list iread_reply) :
  forall (w w' : world) (v : Z),
    getchr_loop B reads w = Returned v w' ->
    v = READ_INTR B \/ 1 <= v <= 255.
Proof.
  induction reads as [|r rest IH]; intros w w' v H; simpl in H; [discriminate|].
  destruct (ir_result r =? READ_INTR B); [left; congruence|].
  destruct (ir_result r <? 0); [discriminate|].
  destruct (LESSTEST B && (char_of_byte (ir_uc r) =? LESS_DUMP_CHAR B)).
  - eapply IH; eassumption.
  - destruct (ir_result r =? 1); [|eapply IH; eassumption].
    right. injection H as Hv _. subst v.
    assert (Hnz : low8 (if char_of_byte (ir_uc r) =? NUL then C340
                        else char_of_byte (ir_uc r)) <> 0).
    { destruct (Z.eqb_spec (char_of_byte (ir_uc r)) NUL) as [_|Hc].
      - rewrite low8_C340. lia.
      - apply low8_nonzero; [apply char_of_byte_range | exact Hc]. }
    pose proof (low8_range (if char_of_byte (ir_uc r) =? NUL then C340
                            else char_of_byte (ir_uc r))).
    lia.
Qed.

(** The alternate source never hands out a zero. *)
Lemma dashp_returns (w w' : world) (v : Z) :
  getchr_dashp w = DashpReturn v w' -> 1 <= v <= 255.
Proof.
  unfold getchr_dashp. destruct (active_dashp_command w) as [p|]; [|discriminate].
  destruct (Z.eqb_spec (deref p) NUL) as [_|Hc].
  - simpl. destruct (add_newline w =? 0); [discriminate|].
    intros H. injection H as Hv _. subst v. compute. split; discriminate.
  - intros H. injection H as Hv _. subst v.
    assert (-128 <= deref p < 128).
    { destruct p; simpl; [unfold NUL; lia | apply to_char_range]. }
    pose proof (low8_range (deref p)). pose proof (low8_nonzero (deref p)).
    unfold NUL in Hc. lia.
Qed.

Lemma stderr_returns (B : build) (w w' : world) (v : Z) :
  getchr_stderr B w = ErrReturn v w' ->
  v = C_EOF B /\ errbuf_sz w' = 0 /\ errpos w' <> 0 /\ use_stderr w' = true.
Proof.
  unfold getchr_stderr.
  destruct (stderr_wanted B w) eqn:Hw; [|discriminate].
  assert (Hu : use_stderr w = true).
  { unfold stderr_wanted in Hw. destruct (APPLE B), (use_stderr w); simpl in Hw;
      congruence. }
  assert (Hr : forall w3, stderr_refill B w = RefillDone w3 -> use_stderr w3 = true).
  { unfold stderr_refill. intros w3.
    destruct (errpos w =? errbuf_sz w); [|intros H; injection H as <-; exact Hu].
    destruct (poll_in w) as [|p polls]; [discriminate|].
    destruct ((poll_result p <=? 0) || (Z.land (poll_revents p) (POLLRDNORM B) =? 0));
      [discriminate|].
    simpl. destruct (stderr_in w) as [|r reads]; [discriminate|].
    simpl. destruct (rd_result r >? 0); intros H; injection H as <-; exact Hu. }
  destruct (stderr_refill B w) as [w3|w3|w3]; try discriminate.
  specialize (Hr w3 eq_refl).
  destruct (Z.leb_spec (errbuf_sz w3) 0) as [Hle|_]; [|discriminate].
  destruct (Z.eqb_spec (errpos w3) 0) as [_|Hp]; [discriminate|].
  destruct (Z.ltb_spec (errbuf_sz w3) 0) as [_|Hge]; [discriminate|].
  simpl. intros H. injection H as Hv Hw'. subst. repeat split; try assumption. lia.
Qed.

(** The only way [getchr] returns 0: the fallback took a zero byte out of
    its buffer and went to [out] (lines 259-260). *)
Lemma zero_only_from_stderr (B : build) (w w' : world) :
  READ_INTR B <> 0 -> C_EOF B <> 0 ->
  getchr B w = Returned 0 w' ->
  exists w1 c, getchr_dashp w = DashpFallthrough w1 /\
               getchr_stderr B w1 = ErrOut c w' /\ low8 c = 0.
Proof.
  intros Hi He. unfold getchr.
  destruct (getchr_dashp w) as [v w1|w1] eqn:Hd.
  - intros H. injection H as Hv _. apply dashp_returns in Hd. lia.
  - unfold getchr_input. destruct (getchr_stderr B w1) as [v w2|c w2|w2|w2] eqn:Hs.
    + intros H. injection H as Hv _. apply stderr_returns in Hs. destruct Hs as [Hs _].
      congruence.
    + intros H. injection H as Hv Hw. subst w2. exists w1, c. auto.
    + intros H. apply loop_returns in H. lia.
    + discriminate.
Qed.

(** ** C1: a zero byte of the fallback stream *)

(** C1 (the code departs from it): [getchr] must never return 0.  With
    the fallback in use, [poll] reporting standard error readable and
    [read] delivering the single byte 0, the call takes the byte out of
    the buffer, jumps past the substitution of ['\340'] and returns 0. *)
Theorem stderr_nul_is_returned :
  exists w',
    getchr macos (idle [{| poll_result := 1; poll_revents := 64 |}]
                       [{| rd_result := 1; rd_data := [x00] |}] [])
    = Returned 0 w'
    /\ trace w' = [EvPoll; EvReadStderr] /\ errpos w' = 1 /\ use_stderr w' = true.
Proof. eexists. split; [vm_compute; reflexivity | repeat split]. Qed.

(** ** C2: a byte of the device *)

(** C2 as stated fails where the test harness is compiled in: the byte
    29 (not zero) arrives with result 1, is answered by a screen dump and
    dropped, and the call returns the next byte, 113. *)
Lemma dump_byte_not_returned :
  let keys := [{| ir_result := 1; ir_uc := x1d |}; {| ir_result := 1; ir_uc := x71 |}] in
  uchar_val x1d <> 0 /\
  reaches_device macos_lesstest (keyboard keys) (keyboard keys) /\
  exists w', getchr macos_lesstest (keyboard keys) = Returned 113 w'
             /\ 113 <> low8 (uchar_val x1d)
             /\ trace w' = [EvFlush; EvIread 3; EvDumpScreen; EvFlush; EvIread 3].
Proof.
  cbv zeta. split; [vm_compute; discriminate|]. split.
  - apply reaches_device_plain; reflexivity.
  - eexists. split; [vm_compute; reflexivity|]. split; [vm_compute; discriminate|reflexivity].
Qed.

(** C2 (amended): when [getchr] gets to the device and [iread] delivers
    one byte [b] that is not zero and, where the test harness is compiled
    in, is not the dump byte, the call returns [b & 0xFF], which is [b],
    and has used exactly that one answer of the device. *)
Theorem device_byte_returned (B : build) (w w2 : world) (b : byte)
    (rest : list iread_reply) :
  READ_INTR B < 0 ->
  reaches_device B w w2 ->
  tty_in w2 = {| ir_result := 1; ir_uc := b |} :: rest ->
  uchar_val b <> 0 ->
  LESSTEST B = false \/ char_of_byte b <> LESS_DUMP_CHAR B ->
  getchr B w = Returned (low8 (uchar_val b)) (took_iread rest w2)
  /\ low8 (uchar_val b) = uchar_val b.
Proof.
  intros Hi Hr Ht Hb Hd.
  assert (Hlow : low8 (uchar_val b) = uchar_val b).
  { rewrite low8_mod. apply Z.mod_small, uchar_val_range. }
  split; [|exact Hlow].
  rewrite (getchr_reaches_device B w w2 Hr), Ht, loop_byte; simpl; try lia.
  - destruct (Z.eqb_spec (char_of_byte b) NUL) as [E|_].
    + apply char_of_byte_zero in E. contradiction.
    + rewrite low8_char_of_byte, Hlow. reflexivity.
  - destruct Hd as [Hd|Hd]; [rewrite Hd; reflexivity|].
    apply andb_false_iff. right. apply Z.eqb_neq. exact Hd.
Qed.

Lemma device_byte_returned_witness :
  getchr macos (keyboard [{| ir_result := 1; ir_uc := x71 |}])
  = Returned (low8 (uchar_val x71)) (took_iread [] (keyboard [{| ir_result := 1; ir_uc := x71 |}]))
  /\ low8 (uchar_val x71) = uchar_val x71.
Proof.
  apply (device_byte_returned macos
           (keyboard [{| ir_result := 1; ir_uc := x71 |}])
           (keyboard [{| ir_result := 1; ir_uc := x71 |}]) x71 []).
  - simpl. lia.
  - apply reaches_device_plain; reflexivity.
  - reflexivity.
  - vm_compute. discriminate.
  - left. reflexivity.
Defined.

(** ** C4: a read of zero units *)

(** C4 as stated fails: the device answers 0 to the first [iread] and
    delivers the byte 113 on the second; the call does not return an end
    of stream (EOF is -1 in this build) but reads again and returns 113. *)
Lemma zero_read_not_reported :
  let keys := [{| ir_result := 0; ir_uc := x00 |}; {| ir_result := 1; ir_uc := x71 |}] in
  exists w', getchr macos (keyboard keys) = Returned 113 w'
             /\ 113 <> C_EOF macos
             /\ trace w' = [EvFlush; EvIread 3; EvFlush; EvIread 3]
             /\ tty_in w' = [].
Proof.
  cbv zeta. eexists. split; [vm_compute; reflexivity|].
  split; [vm_compute; discriminate|]. split; reflexivity.
Qed.

(** The fallback returns EOF when its buffer was used up to a position
    other than 0 and the [read] that should refill it transfers nothing. *)
Lemma stderr_zero_read (B : build) (w : world) (p : poll_reply) (polls : list poll_reply)
    (r : read_reply) (reads : list read_reply) :
  stderr_wanted B w = true -> errpos w = errbuf_sz w -> errpos w <> 0 ->
  poll_in w = p :: polls -> readable B p ->
  stderr_in w = r :: reads -> rd_result r = 0 ->
  getchr_stderr B w = ErrReturn (C_EOF B) (took_read r reads (took_poll polls w)).
Proof.
  intros Hw He Hp Hpoll [Hr1 Hr2] Hin H0.
  unfold getchr_stderr, stderr_refill. rewrite Hw, He, Z.eqb_refl, Hpoll.
  destruct (Z.leb_spec (poll_result p) 0) as [Hle|_]; [lia|].
  destruct (Z.eqb_spec (Z.land (poll_revents p) (POLLRDNORM B)) 0) as [E|_];
    [contradiction|].
  simpl. rewrite Hin. simpl. rewrite H0. simpl.
  destruct (Z.eqb_spec (errpos w) 0) as [E|_]; [contradiction|].
  rewrite H0. reflexivity.
Qed.

(** C4 (amended): an [iread] that transfers zero units does not end the
    call and is not reported.  The loop goes round again in the same call
    with the next answer of the device, and whatever the call then returns
    is the interrupt value or a non-zero byte.  EOF is returned by the
    fallback on standard error alone: only with an empty buffer
    ([errbuf_sz] is 0) and [errpos] not 0, and in particular when the
    [read] that should refill a used-up buffer transfers nothing. *)
Theorem zero_read_is_retried (B : build) (w w2 : world) (r : iread_reply)
    (rest : list iread_reply) :
  READ_INTR B < 0 ->
  reaches_device B w w2 ->
  tty_in w2 = r :: rest ->
  ir_result r = 0 ->
  getchr B w = getchr_loop B rest (retried B r rest w2)
  /\ tty_in (retried B r rest w2) = rest
  /\ (forall v w', getchr B w = Returned v w' -> v = READ_INTR B \/ 1 <= v <= 255)
  /\ (forall w1 v w', getchr_stderr B w1 = ErrReturn v w' ->
                      v = C_EOF B /\ errbuf_sz w' = 0 /\ errpos w' <> 0)
  /\ (forall w1 p polls e reads,
        stderr_wanted B w1 = true -> errpos w1 = errbuf_sz w1 -> errpos w1 <> 0 ->
        poll_in w1 = p :: polls -> readable B p ->
        stderr_in w1 = e :: reads -> rd_result e = 0 ->
        getchr_input B w1 = Returned (C_EOF B) (took_read e reads (took_poll polls w1))).
Proof.
  intros Hi Hr Ht H0.
  assert (Hg : getchr B w = getchr_loop B rest (retried B r rest w2)).
  { rewrite (getchr_reaches_device B w w2 Hr), Ht. apply loop_retry; lia. }
  split; [exact Hg|]. split; [|split; [|split]].
  - unfold retried.
    destruct (LESSTEST B && (char_of_byte (ir_uc r) =? LESS_DUMP_CHAR B)); reflexivity.
  - intros v w' H. rewrite Hg in H. eapply loop_returns; eassumption.
  - intros w1 v w' H. apply stderr_returns in H. tauto.
  - intros w1 p polls e reads Hw He Hp Hpoll Hrd Hin He0. unfold getchr_input.
    rewrite (stderr_zero_read B w1 p polls e reads Hw He Hp Hpoll Hrd Hin He0).
    reflexivity.
Qed.

Lemma zero_read_is_retried_witness :
  let keys := [{| ir_result := 0; ir_uc := x00 |}; {| ir_result := 1; ir_uc := x71 |}] in
  getchr macos (keyboard keys)
  = getchr_loop macos [{| ir_result := 1; ir_uc := x71 |}]
      (retried macos {| ir_result := 0; ir_uc := x00 |}
               [{| ir_result := 1; ir_uc := x71 |}] (keyboard keys)).
Proof.
  cbv zeta.
  apply (zero_read_is_retried macos
           (keyboard [{| ir_result := 0; ir_uc := x00 |}; {| ir_result := 1; ir_uc := x71 |}])
           (keyboard [{| ir_result := 0; ir_uc := x00 |}; {| ir_result := 1; ir_uc := x71 |}])
           {| ir_result := 0; ir_uc := x00 |} [{| ir_result := 1; ir_uc := x71 |}]).
  - simpl. lia.
  - apply reaches_device_plain; reflexivity.
  - reflexivity.
  - reflexivity.
Defined.

(** ** C5: a failed read *)

(** C5: when an [iread] of the loop reports an error (a negative result
    other than the interrupt value), the call ends in [quit(QUIT_ERROR)]:
    after the failed read the only call made is that [quit], [error()] is
    never called, and the remaining answers of the device are untouched.
    This holds for the first attempt of a call and for every later
    iteration. *)
Theorem read_error_quits (B : build) (w w2 : world) (r : iread_reply)
    (rest : list iread_reply) :
  reaches_device B w w2 ->
  tty_in w2 = r :: rest ->
  ir_result r < 0 ->
  ir_result r <> READ_INTR B ->
  exists w',
    getchr B w = Quit (QUIT_ERROR B) w'
    /\ trace w' = trace w2 ++ [EvFlush; EvIread (tty w2); EvQuit (QUIT_ERROR B)]
    /\ tty_in w' = rest
    /\ (~ In EvError (trace w2) -> ~ In EvError (trace w'))
    /\ forall w0, getchr_loop B (r :: rest) w0
                  = Quit (QUIT_ERROR B) (log (EvQuit (QUIT_ERROR B)) (took_iread rest w0)).
Proof.
  intros Hr Ht Hneg Hne.
  exists (log (EvQuit (QUIT_ERROR B)) (took_iread rest w2)).
  split; [|split; [|split; [|split]]].
  - rewrite (getchr_reaches_device B w w2 Hr), Ht. apply loop_error; assumption.
  - simpl. rewrite <- app_assoc. reflexivity.
  - reflexivity.
  - simpl. intros Hno Hin. rewrite <- app_assoc in Hin.
    apply in_app_or in Hin. destruct Hin as [Hin|Hin]; [contradiction|].
    simpl in Hin. destruct Hin as [H|[H|[H|[]]]]; discriminate.
  - intros w0. apply loop_error; assumption.
Qed.

Lemma read_error_quits_witness :
  let keys := [{| ir_result := -1; ir_uc := x00 |}; {| ir_result := 1; ir_uc := x71 |}] in
  exists w',
    getchr macos (keyboard keys) = Quit 1 w'
    /\ trace w' = [EvFlush; EvIread 3; EvQuit 1]
    /\ tty_in w' = [{| ir_result := 1; ir_uc := x71 |}].
Proof.
  cbv zeta.
  destruct (read_error_quits macos
           (keyboard [{| ir_result := -1; ir_uc := x00 |}; {| ir_result := 1; ir_uc := x71 |}])
           (keyboard [{| ir_result := -1; ir_uc := x00 |}; {| ir_result := 1; ir_uc := x71 |}])
           {| ir_result := -1; ir_uc := x00 |} [{| ir_result := 1; ir_uc := x71 |}])
    as [w' [H1 [H2 [H3 _]]]].
  - apply reaches_device_plain; reflexivity.
  - reflexivity.
  - simpl. lia.
  - simpl. lia.
  - exists w'. split; [exact H1|]. split; [exact H2 | exact H3].
Defined.

(** ** C6: an interrupted read *)

(** C6: when an [iread] of the loop reports READ_INTR, the call returns
    READ_INTR at once: the interrupted read is the last thing the call
    did, nothing is read again, and the byte variable of that attempt is
    not looked at.  This holds for the first attempt of a call and for
    every later iteration. *)
Theorem read_interrupt_returns (B : build) (w w2 : world) (r : iread_reply)
    (rest : list iread_reply) :
  reaches_device B w w2 ->
  tty_in w2 = r :: rest ->
  ir_result r = READ_INTR B ->
  getchr B w = Returned (READ_INTR B) (took_iread rest w2)
  /\ trace (took_iread rest w2) = trace w2 ++ [EvFlush; EvIread (tty w2)]
  /\ tty_in (took_iread rest w2) = rest
  /\ forall w0, getchr_loop B (r :: rest) w0 = Returned (READ_INTR B) (took_iread rest w0).
Proof.
  intros Hr Ht Hi. split; [|split; [|split]].
  - rewrite (getchr_reaches_device B w w2 Hr), Ht. apply loop_intr. exact Hi.
  - reflexivity.
  - reflexivity.
  - intros w0. apply loop_intr. exact Hi.
Qed.

Lemma read_interrupt_returns_witness :
  let keys := [{| ir_result := -2; ir_uc := x71 |}; {| ir_result := 1; ir_uc := x71 |}] in
  getchr macos (keyboard keys)
  = Returned (-2) (took_iread [{| ir_result := 1; ir_uc := x71 |}] (keyboard keys)).
Proof.
  cbv zeta.
  apply (read_interrupt_returns macos
           (keyboard [{| ir_result := -2; ir_uc := x71 |}; {| ir_result := 1; ir_uc := x71 |}])
           (keyboard [{| ir_result := -2; ir_uc := x71 |}; {| ir_result := 1; ir_uc := x71 |}])
           {| ir_result := -2; ir_uc := x71 |} [{| ir_result := 1; ir_uc := x71 |}]).
  - apply reaches_device_plain; reflexivity.
  - reflexivity.
  - reflexivity.
Defined.

(** ** What the device loop and the alternate source leave alone *)

Lemma beside_device_refl (w : world) : beside_device w w.
Proof. repeat split. Qed.

Lemma beside_device_trans (w1 w2 w3 : world) :
  beside_device w1 w2 -> beside_device w2 w3 -> beside_device w1 w3.
Proof.
  unfold beside_device. intros [A1 [A2 [A3 [A4 A5]]]] [B1 [B2 [B3 [B4 B5]]]].
  repeat split; congruence.
Qed.

Lemma loop_frame (B : build) (reads : list iread_reply) :
  forall w, beside_device w (world_of (getchr_loop B reads w)).
Proof.
  induction reads as [|r rest IH]; intros w; simpl.
  - repeat split.
  - destruct (ir_result r =? READ_INTR B); [repeat split|].
    destruct (ir_result r <? 0); [repeat split|].
    destruct (LESSTEST B && (char_of_byte (ir_uc r) =? LESS_DUMP_CHAR B)).
    + eapply beside_device_trans; [|apply IH]. repeat split.
    + destruct (ir_result r =? 1); [repeat split|].
      eapply beside_device_trans; [|apply IH]. repeat split.
Qed.

Lemma stderr_off_skipped (B : build) (w : world) :
  use_stderr w = false -> getchr_stderr B w = ErrNoStderr w.
Proof.
  intros H. unfold getchr_stderr, stderr_wanted. rewrite H, andb_false_r. reflexivity.
Qed.

Lemma dashp_keeps_statics (w : world) :
  let w' := match getchr_dashp w with DashpReturn _ x | DashpFallthrough x => x end in
  use_stderr w' = use_stderr w /\ poll_in w' = poll_in w /\ stderr_in w' = stderr_in w
  /\ trace w' = trace w /\ tty_in w' = tty_in w.
Proof.
  unfold getchr_dashp. destruct (active_dashp_command w) as [p|]; [|repeat split].
  destruct (deref p =? NUL); [|repeat split].
  simpl. destruct (add_newline w =? 0); repeat split.
Qed.

(** A call made with the fallback off leaves it off and does not touch
    standard error. *)
Lemma call_with_stderr_off (B : build) (w : world) :
  use_stderr w = false ->
  use_stderr (world_of (getchr B w)) = false
  /\ poll_in (world_of (getchr B w)) = poll_in w
  /\ stderr_in (world_of (getchr B w)) = stderr_in w.
Proof.
  intros Hoff. unfold getchr. pose proof (dashp_keeps_statics w) as Hd. cbv zeta in Hd.
  destruct (getchr_dashp w) as [v w1|w1]; simpl.
  - destruct Hd as [H1 [H2 [H3 _]]]. repeat split; congruence.
  - destruct Hd as [H1 [H2 [H3 _]]]. unfold getchr_input.
    rewrite stderr_off_skipped by congruence.
    destruct (loop_frame B (tty_in w1) w1) as [_ [_ [F3 [F4 F5]]]].
    repeat split; congruence.
Qed.

(** When the fallback is wanted and [poll] does not report standard error
    readable, the flag is cleared and the call goes on to the device. *)
Lemma unreadable_switches_off (B : build) (w : world) (p : poll_reply)
    (polls : list poll_reply) :
  stderr_wanted B w = true -> errpos w = errbuf_sz w -> poll_in w = p :: polls ->
  poll_result p <= 0 \/ Z.land (poll_revents p) (POLLRDNORM B) = 0 ->
  getchr_stderr B w = ErrNoStderr (set_use_stderr false (took_poll polls w))
  /\ use_stderr (set_use_stderr false (took_poll polls w)) = false.
Proof.
  intros Hw He Hp Hbad. split; [|reflexivity].
  unfold getchr_stderr, stderr_refill. rewrite Hw, He, Z.eqb_refl, Hp.
  assert (Ht : (poll_result p <=? 0) || (Z.land (poll_revents p) (POLLRDNORM B) =? 0) = true).
  { apply orb_true_iff. destruct Hbad as [H|H]; [left; apply Z.leb_le; exact H|].
    right. apply Z.eqb_eq. exact H. }
  rewrite Ht. reflexivity.
Qed.

(** Every way the fallback block hands the call over to the device after
    it was wanted clears the flag. *)
Lemma handed_over_is_off (B : build) (w w' : world) :
  stderr_wanted B w = true -> getchr_stderr B w = ErrNoStderr w' ->
  use_stderr w' = false.
Proof.
  intros Hw. unfold getchr_stderr, stderr_refill. rewrite Hw.
  destruct (errpos w =? errbuf_sz w).
  - destruct (poll_in w) as [|p polls]; [discriminate|].
    destruct ((poll_result p <=? 0) || (Z.land (poll_revents p) (POLLRDNORM B) =? 0)).
    + intros H. injection H as <-. reflexivity.
    + simpl. destruct (stderr_in w) as [|r reads]; [discriminate|].
      simpl. destruct (rd_result r >? 0) eqn:Hr; simpl.
      * destruct (Z.gtb_spec (rd_result r) 0) as [Hgt|]; [|discriminate].
        destruct (Z.leb_spec (rd_result r) 0) as [Hle|_]; [lia|discriminate].
      * destruct (rd_result r <=? 0); [|discriminate].
        destruct ((errpos w =? 0) || (rd_result r <? 0)); [|discriminate].
        intros H. injection H as <-. reflexivity.
  - destruct (errbuf_sz w <=? 0); [|discriminate].
    destruct ((errpos w =? 0) || (errbuf_sz w <? 0)); [|discriminate].
    intros H. injection H as <-. reflexivity.
Qed.

(** ** C8: the fallback stays off *)

(** C8: once [use_stderr] is false it is false in every later world of
    the process, whatever calls of [getchr] and whatever other code ran in
    between; so the flag goes from true to false at most once.  In every
    such world a call skips the fallback block as a whole, reads from the
    device loop, makes neither the [poll] nor the [read] on standard error,
    and leaves the flag false. *)
Theorem fallback_stays_off (B : build) (w w' : world) :
  use_stderr w = false ->
  later B w w' ->
  use_stderr w' = false
  /\ getchr_stderr B w' = ErrNoStderr w'
  /\ getchr_input B w' = getchr_loop B (tty_in w') w'
  /\ use_stderr (world_of (getchr B w')) = false
  /\ poll_in (world_of (getchr B w')) = poll_in w'
  /\ stderr_in (world_of (getchr B w')) = stderr_in w'.
Proof.
  intros Hoff Hl.
  assert (Hoff' : use_stderr w' = false).
  { induction Hl as [|w1 w2 v _ IH Hc|w1 w2 _ IH Hu _ _ _].
    - exact Hoff.
    - destruct (call_with_stderr_off B w1 IH) as [H _]. rewrite Hc in H. exact H.
    - congruence. }
  split; [exact Hoff'|]. split; [apply stderr_off_skipped; exact Hoff'|].
  split.
  - unfold getchr_input. rewrite stderr_off_skipped by exact Hoff'. reflexivity.
  - apply call_with_stderr_off. exact Hoff'.
Qed.

Lemma fallback_stays_off_witness :
  let w0 := idle [{| poll_result := 0; poll_revents := 0 |}] []
                 [{| ir_result := 1; ir_uc := x71 |}; {| ir_result := 1; ir_uc := x72 |};
                  {| ir_result := 1; ir_uc := x73 |}] in
  let w1 := world_of (getchr macos w0) in
  let w2 := world_of (getchr macos w1) in
  use_stderr w0 = true /\ use_stderr w1 = false /\ use_stderr w2 = false
  /\ getchr_input macos w2 = getchr_loop macos (tty_in w2) w2.
Proof.
  cbv zeta. split; [reflexivity|]. split; [reflexivity|].
  set (w0 := idle [{| poll_result := 0; poll_revents := 0 |}] []
                 [{| ir_result := 1; ir_uc := x71 |}; {| ir_result := 1; ir_uc := x72 |};
                  {| ir_result := 1; ir_uc := x73 |}]).
  destruct (fallback_stays_off macos (world_of (getchr macos w0))
              (world_of (getchr macos (world_of (getchr macos w0)))))
    as [H1 [_ [H3 _]]].
  - reflexivity.
  - apply later_call with (w1 := world_of (getchr macos w0)) (v := 114).
    + apply later_now.
    + vm_compute. reflexivity.
  - split; [exact H1 | exact H3].
Defined.

(** ** C3 and C10: the alternate command source *)

Lemma dashp_char (B : build) (w : world) (a : ascii) (p : string) :
  active_dashp_command w = Some (String a p) -> char_of_ascii a <> 0 ->
  getchr B w = Returned (low8 (char_of_ascii a)) (set_active_dashp_command (Some p) w).
Proof.
  intros Ha Hc. unfold getchr, getchr_dashp. rewrite Ha. simpl.
  destruct (Z.eqb_spec (char_of_ascii a) NUL) as [E|_]; [contradiction|reflexivity].
Qed.

Lemma dashp_end_newline (B : build) (w : world) (p : string) :
  active_dashp_command w = Some p -> deref p = NUL -> add_newline w <> 0 ->
  getchr B w = Returned 10 (set_add_newline 0 (set_active_dashp_command None w)).
Proof.
  intros Ha Hc Hn. unfold getchr, getchr_dashp. rewrite Ha, Hc. simpl.
  destruct (Z.eqb_spec (add_newline w) 0) as [E|_]; [contradiction|reflexivity].
Qed.


Lemma no_dashp (B : build) (w : world) :
  active_dashp_command w = None -> getchr B w = getchr_input B w.
Proof. intros Ha. unfold getchr, getchr_dashp. rewrite Ha. reflexivity. Qed.


(** One call while the buffer still holds bytes: the byte at [errpos]. *)
Lemma fallback_next (B : build) (w : world) :
  active_dashp_command w = None -> stderr_wanted B w = true ->
  errpos w < errbuf_sz w -> 0 <= errpos w ->
  getchr B w
  = Returned (uchar_val (nth (Z.to_nat (errpos w)) (errbuf w) x00))
             (set_errpos (errpos w + 1) w).
Proof.
  intros Ha Hw Hlt Hpos. rewrite no_dashp by exact Ha.
  unfold getchr_input, getchr_stderr, stderr_refill. rewrite Hw.
  destruct (Z.eqb_spec (errpos w) (errbuf_sz w)) as [E|_]; [lia|].
  destruct (Z.leb_spec (errbuf_sz w) 0) as [Hle|_]; [lia|].
  rewrite low8_char_of_byte. reflexivity.
Qed.









(** ** C7: the search for the terminal *)

Section LocatorFacts.

Import Locator.

Lemma opens_note_open (st : state) (o : bool) (dev : string) :
  opens (note (COpen o dev) st) = S (opens st).
Proof.
  unfold opens, note. simpl. rewrite filter_app, length_app. simpl. lia.
Qed.

Lemma opens_note_ttyname (st : state) (fd : Z) :
  opens (note (CTtyname fd) st) = opens st.
Proof.
  unfold opens, note. simpl. rewrite filter_app, length_app. simpl. lia.
Qed.

Lemma opened_app (l l' : list call) : opened (l ++ l') = opened l ++ opened l'.
Proof.
  induction l as [|c l IH]; simpl; [reflexivity|].
  destruct c; simpl; rewrite IH; reflexivity.
Qed.

(** What trying paths in order means: the paths tried are the first ones
    of the list, every one of them but the last was refused, and either
    the last one was opened (and that descriptor is the result) or the
    whole list was tried and refused. *)
Lemma first_openable_spec (S : system) (paths : list string) :
  forall k,
    let (tried, found) := first_openable S k paths in
    exists n,
      tried = firstn n paths
      /\ (forall i p, nth_error tried i = Some p -> (Datatypes.S i < List.length tried)%nat ->
                      sys_open S (k + i) p < 0)
      /\ match found with
         | Some fd =>
             0 <= fd /\ exists p, nth_error tried (List.length tried - 1) = Some p
                                  /\ fd = sys_open S (k + (List.length tried - 1)) p
         | None =>
             tried = paths
             /\ forall i p, nth_error tried i = Some p -> sys_open S (k + i) p < 0
         end.
Proof.
  induction paths as [|p rest IH]; intros k; simpl.
  - exists 0%nat. repeat split; try reflexivity.
    + intros i q H. destruct i; discriminate.
    + intros i q H. destruct i; discriminate.
  - destruct (Z.ltb_spec (sys_open S k p) 0) as [Hlt|Hge].
    + specialize (IH (Datatypes.S k)).
      destruct (first_openable S (Datatypes.S k) rest) as [tried found].
      destruct IH as [n [Ht [Hfail Hlast]]].
      exists (Datatypes.S n). split; [simpl; rewrite Ht; reflexivity|]. split.
      * intros i q Hq Hi. destruct i as [|i]; simpl in Hq.
        -- injection Hq as <-. rewrite Nat.add_0_r. exact Hlt.
        -- replace (k + Datatypes.S i)%nat with (Datatypes.S k + i)%nat by lia.
           apply Hfail; [exact Hq | simpl in Hi; lia].
      * destruct found as [fd|].
        -- destruct Hlast as [Hpos [q [Hq Hfd]]]. split; [exact Hpos|].
           assert (Hne : (List.length tried <> 0)%nat).
           { intros E. destruct tried; [|discriminate].
             simpl in Hq. discriminate. }
           exists q. simpl. rewrite Nat.sub_0_r.
           destruct (List.length tried) as [|m] eqn:El; [contradiction|].
           simpl in Hq, Hfd. rewrite Nat.sub_0_r in Hq, Hfd.
           split; [exact Hq|].
           replace (k + Datatypes.S m)%nat with (Datatypes.S k + m)%nat by lia. exact Hfd.
        -- destruct Hlast as [Hall Hf]. split; [rewrite Hall; reflexivity|].
           intros i q Hq. destruct i as [|i]; simpl in Hq.
           ++ injection Hq as <-. rewrite Nat.add_0_r. exact Hlt.
           ++ replace (k + Datatypes.S i)%nat with (Datatypes.S k + i)%nat by lia.
              apply Hf. exact Hq.
    + exists 1%nat. split; [reflexivity|]. split.
      * intros i q Hq Hi. simpl in Hi. lia.
      * split; [exact Hge|]. exists p. simpl. rewrite Nat.add_0_r. split; reflexivity.
Qed.

End LocatorFacts.

Section LocatorOrder.

Import Locator.

(** [open_tty] does what trying its candidate paths in order does. *)
Lemma open_tty_refines (B : build) (S : system) (st : state) :
  Locator.opened (made (snd (open_tty B S st)))
  = Locator.opened (made st) ++ fst (first_openable S (opens st) (candidates B S st))
  /\ fst (open_tty B S st)
     = match snd (first_openable S (opens st) (candidates B S st)) with
       | Some fd => fd
       | None => 2
       end.
Proof.
  unfold open_tty, candidates, open_tty_device, is_lesstest.
  destruct (LESSTEST B); destruct (ttyin_name st) as [name|] eqn:En;
    destruct (HAVE_TTYNAME B); destruct (sys_ttyname S 2) as [dev|];
    destruct (MVS B); simpl;
    repeat (rewrite ?opens_note_open, ?opens_note_ttyname;
            match goal with
            | |- context [?c <? 0] => destruct (Z.ltb_spec c 0); simpl
            end);
    rewrite ?opens_note_open, ?opens_note_ttyname in *;
    repeat rewrite ?opened_app, <- ?app_assoc; simpl;
    try (split; [reflexivity | reflexivity || lia]);
    try lia.
Qed.

End LocatorOrder.

(** C7: [open_tty] tries the paths of [candidates] in their order (the
    playback path when the test harness is compiled in and the path is set,
    the name [ttyname(2)] gives when there is one, then "/dev/tty"): the
    paths it opens are the first [n] candidates, each of them but the last
    was refused, and either the last one was opened and its descriptor is
    the result, or every candidate was refused and the result is 2.  The
    result is never negative. *)
Theorem open_tty_tries_in_order (B : Locator.build) (S : Locator.system)
    (st : Locator.state) :
  exists n : nat,
    let tried := firstn n (Locator.candidates B S st) in
    let fd := fst (Locator.open_tty B S st) in
    let k := Locator.opens st in
    Locator.opened (Locator.made (snd (Locator.open_tty B S st)))
    = Locator.opened (Locator.made st) ++ tried
    /\ (forall i p, nth_error tried i = Some p -> (Datatypes.S i < List.length tried)%nat ->
                    Locator.sys_open S (k + i) p < 0)
    /\ ((exists p, nth_error tried (List.length tried - 1) = Some p
                   /\ fd = Locator.sys_open S (k + (List.length tried - 1)) p
                   /\ 0 <= fd)
        \/ (tried = Locator.candidates B S st
            /\ (forall i p, nth_error tried i = Some p -> Locator.sys_open S (k + i) p < 0)
            /\ fd = 2))
    /\ 0 <= fd.
Proof.
  destruct (open_tty_refines B S st) as [Hop Hfd].
  pose proof (first_openable_spec S (Locator.candidates B S st) (Locator.opens st)) as Hs.
  destruct (Locator.first_openable S (Locator.opens st) (Locator.candidates B S st))
    as [tried found].
  destruct Hs as [n [Ht [Hfail Hlast]]]. simpl in Hop, Hfd.
  exists n. cbv zeta. rewrite <- Ht. split; [exact Hop|]. split; [exact Hfail|].
  destruct found as [fd|].
  - destruct Hlast as [Hpos [p [Hp Hv]]]. rewrite Hfd. split; [|exact Hpos].
    left. exists p. repeat split; assumption.
  - destruct Hlast as [Hall Hf]. rewrite Hfd. split; [|lia].
    right. repeat split; assumption.
Qed.

(** ** C9: the console mode over a session *)

Section SessionFacts.

Import Session.

Lemma SetConsoleMode_fixed (h m : Z) (s : state) : session_fixed s (SetConsoleMode h m s).
Proof. unfold SetConsoleMode. destruct (is_console h s); repeat split. Qed.

Lemma act_fixed (a : action) (s : state) : session_fixed s (act a s).
Proof.
  destruct a as [m| |m]; simpl.
  - unfold set_mode. destruct m;
      match goal with
      | |- session_fixed _ (SetConsoleMode ?h ?m ?x) =>
          destruct (SetConsoleMode_fixed h m x) as [A1 [A2 [A3 A4]]]
      end; repeat split; (etransitivity; [eassumption|reflexivity]).
  - unfold pclose.
    match goal with
    | |- session_fixed _ (SetConsoleMode ?h ?m ?x) =>
        destruct (SetConsoleMode_fixed h m x) as [A1 [A2 [A3 A4]]]
    end; repeat split; (etransitivity; [eassumption|reflexivity]).
  - repeat split.
Qed.

Lemma session_is_fixed (acts : list action) :
  forall s, session_fixed s (session acts s).
Proof.
  induction acts as [|a acts IH]; intros s; simpl.
  - repeat split.
  - destruct (act_fixed a s) as [A1 [A2 [A3 A4]]].
    destruct (IH (act a s)) as [B1 [B2 [B3 B4]]].
    unfold session in *. repeat split; congruence.
Qed.

Lemma close_restores (B : build) (s : state) :
  MSDOS_COMPILER B = WIN32C -> is_console (tty s) s = true ->
  console_mode (close_getchr B s) = init_console_input_mode s
  /\ conin_open (close_getchr B s) = false.
Proof.
  intros HB Hc. unfold close_getchr. rewrite HB.
  unfold SetConsoleMode. rewrite Hc. simpl.
  unfold CloseHandle. simpl.
  assert (Hc' : is_console (tty s)
             (set_console (init_console_input_mode s) (conin_open s)
                (note (CSetConsoleMode (tty s) (init_console_input_mode s)) s)) = true)
    by exact Hc.
  rewrite Hc'. split; reflexivity.
Qed.

Lemma open_captures (B : build) (S : Locator.system) (s : state) (h : Z) :
  MSDOS_COMPILER B = WIN32C -> conin s = Some h ->
  let s1 := open_getchr B S s in
  tty s1 = h /\ init_console_input_mode s1 = console_mode s
  /\ conin s1 = Some h /\ conin_open s1 = true
  /\ curr_console_input_mode s1 = base_console_input_mode s1
  /\ console_mode s1 = base_console_input_mode s1.
Proof.
  intros HB Hh. unfold open_getchr. rewrite HB.
  unfold CreateFile. simpl. rewrite Hh. simpl.
  unfold GetConsoleMode, is_console. simpl. rewrite Hh, Z.eqb_refl. simpl.
  unfold SetConsoleMode, is_console. simpl. rewrite Hh, Z.eqb_refl. simpl.
  repeat split. exact Hh.
Qed.

End SessionFacts.

(** C9: on the WIN32C build, when the console can be opened,
    [open_getchr] stores the mode the console has at that moment in
    [init_console_input_mode]; no mode switch, [pclose] or child process
    in between changes that variable; and [close_getchr] sets the console
    back to it and releases the handle.  So the mode after the close is
    the mode before the open, whatever happened in between. *)
Theorem console_mode_round_trip (B : Session.build) (S : Locator.system)
    (s : Session.state) (h : Z) (acts : list Session.action) :
  Session.MSDOS_COMPILER B = Session.WIN32C ->
  Session.conin s = Some h ->
  let opened := Session.open_getchr B S s in
  let closed := Session.close_getchr B (Session.session acts opened) in
  Session.init_console_input_mode opened = Session.console_mode s
  /\ Session.init_console_input_mode (Session.session acts opened) = Session.console_mode s
  /\ Session.console_mode closed = Session.console_mode s
  /\ Session.conin_open closed = false.
Proof.
  intros HB Hh opened closed.
  destruct (open_captures B S s h HB Hh) as [O1 [O2 [O3 [O4 _]]]]. fold opened in O1, O2, O3, O4.
  destruct (session_is_fixed acts opened) as [F1 [F2 [F3 F4]]].
  assert (Hc : Session.is_console (Session.tty (Session.session acts opened))
                 (Session.session acts opened) = true).
  { unfold Session.is_console. rewrite F4, O4, F3, O3, F1, O1, Z.eqb_refl. reflexivity. }
  destruct (close_restores B (Session.session acts opened) HB Hc) as [C1 C2].
  fold closed in C1, C2.
  split; [exact O2|]. split; [congruence|]. split; [congruence | exact C2].
Qed.

Lemma console_mode_round_trip_witness :
  let acts := [Session.ASetMode Session.ExtendedMode; Session.AChildLeft 7;
               Session.APclose; Session.ASetMode Session.BaseMode] in
  let opened := Session.open_getchr Session.win32 Session.no_system Session.console0 in
  let closed := Session.close_getchr Session.win32 (Session.session acts opened) in
  Session.init_console_input_mode opened = 0x1F7
  /\ Session.init_console_input_mode (Session.session acts opened) = 0x1F7
  /\ Session.console_mode closed = 0x1F7
  /\ Session.conin_open closed = false.
Proof.
  cbv zeta.
  apply (console_mode_round_trip Session.win32 Session.no_system Session.console0 100
           [Session.ASetMode Session.ExtendedMode; Session.AChildLeft 7;
            Session.APclose; Session.ASetMode Session.BaseMode]).
  - reflexivity.
  - reflexivity.
Defined.

(** * Further properties of the code *)

Import Runs.

(** ** getchr: values *)

(** X1: a byte 0 delivered by [iread] (with result 1) is returned as 0xE0
    (lines 344-345), unless the test harness is compiled in with 0 as its
    dump byte. *)
Theorem device_nul_substituted (B : build) (w w2 : world) (b : byte)
    (rest : list iread_reply) :
  READ_INTR B < 0 ->
  reaches_device B w w2 ->
  tty_in w2 = {| ir_result := 1; ir_uc := b |} :: rest ->
  uchar_val b = 0 ->
  LESSTEST B = false \/ LESS_DUMP_CHAR B <> 0 ->
  getchr B w = Returned 224 (took_iread rest w2).
Proof.
  intros Hi Hr Ht Hb Hd.
  assert (Hc : char_of_byte b = 0) by (apply char_of_byte_zero; exact Hb).
  rewrite (getchr_reaches_device B w w2 Hr), Ht, loop_byte; simpl; try lia.
  - rewrite Hc. reflexivity.
  - rewrite Hc. destruct Hd as [Hd|Hd]; [rewrite Hd; reflexivity|].
    apply andb_false_iff. right. apply Z.eqb_neq. congruence.
Qed.

Lemma device_nul_substituted_witness :
  getchr macos (keyboard [{| ir_result := 1; ir_uc := x00 |}])
  = Returned 224 (took_iread [] (keyboard [{| ir_result := 1; ir_uc := x00 |}])).
Proof.
  apply (device_nul_substituted macos
           (keyboard [{| ir_result := 1; ir_uc := x00 |}])
           (keyboard [{| ir_result := 1; ir_uc := x00 |}]) x00 []).
  - simpl. lia.
  - apply reaches_device_plain; reflexivity.
  - reflexivity.
  - reflexivity.
  - left. reflexivity.
Defined.

Lemma stderr_out_wanted (B : build) (w w' : world) (c : Z) :
  getchr_stderr B w = ErrOut c w' ->
  stderr_wanted B w = true /\ -128 <= c < 128.
Proof.
  unfold getchr_stderr. destruct (stderr_wanted B w); [|discriminate].
  destruct (stderr_refill B w) as [w3|w3|w3]; try discriminate.
  destruct (errbuf_sz w3 <=? 0).
  - destruct ((errpos w3 =? 0) || (errbuf_sz w3 <? 0)); discriminate.
  - intros H. injection H as Hc _. subst c. split; [reflexivity|].
    apply char_of_byte_range.
Qed.

Lemma dashp_keeps_wanted (B : build) (w w1 : world) :
  getchr_dashp w = DashpFallthrough w1 -> stderr_wanted B w1 = stderr_wanted B w.
Proof.
  unfold getchr_dashp. destruct (active_dashp_command w) as [p|].
  - destruct (deref p =? NUL); [|discriminate].
    simpl. destruct (add_newline w =? 0); [|discriminate].
    intros H. injection H as <-. reflexivity.
  - intros H. injection H as <-. reflexivity.
Qed.

(** X2: whatever [getchr] returns is the interrupt value, EOF, or a value
    from 0 to 255; and the value 0 itself is returned only when the
    fallback on standard error is in use: with the fallback off (or not
    compiled in) no call returns 0. *)
Theorem getchr_value_range (B : build) (w w' : world) (v : Z) :
  getchr B w = Returned v w' ->
  (v = READ_INTR B \/ v = C_EOF B \/ 0 <= v <= 255)
  /\ (READ_INTR B <> 0 -> C_EOF B <> 0 -> v = 0 -> stderr_wanted B w = true).
Proof.
  intros H. split.
  - unfold getchr in H. destruct (getchr_dashp w) as [u w1|w1] eqn:Hd.
    + injection H as Hv _. subst u. apply dashp_returns in Hd. lia.
    + unfold getchr_input in H.
      destruct (getchr_stderr B w1) as [u w2|c w2|w2|w2] eqn:Hs.
      * injection H as Hv _. subst u. apply stderr_returns in Hs. tauto.
      * injection H as Hv _. subst v. pose proof (low8_range c). lia.
      * apply loop_returns in H. lia.
      * discriminate.
  - intros Hi He Hv. subst v.
    destruct (zero_only_from_stderr B w w' Hi He H) as [w1 [c [Hd [Hs _]]]].
    rewrite <- (dashp_keeps_wanted B w w1 Hd).
    apply stderr_out_wanted in Hs. tauto.
Qed.

Lemma getchr_value_range_witness :
  (113 = READ_INTR macos \/ 113 = C_EOF macos \/ 0 <= 113 <= 255)
  /\ (READ_INTR macos <> 0 -> C_EOF macos <> 0 -> 113 = 0 ->
      stderr_wanted macos (keyboard [{| ir_result := 1; ir_uc := x71 |}]) = true).
Proof.
  apply (getchr_value_range macos (keyboard [{| ir_result := 1; ir_uc := x71 |}])
           (took_iread [] (keyboard [{| ir_result := 1; ir_uc := x71 |}])) 113).
  reflexivity.
Defined.

(** ** getchr: the alternate command source in general *)

Lemma cursor_steps_calls (B : build) (p : string) :
  forall w, active_dashp_command w = Some p -> no_nul p ->
    calls B (String.length p) w
    = map (fun s => Returned (fst s) (set_active_dashp_command (Some (snd s)) w))
          (cursor_steps p)
    /\ after B (String.length p) w = Some (set_active_dashp_command (Some ""%string) w
                                           ).
Proof.
  induction p as [|a rest IH]; intros w Ha Hn.
  - simpl. split; [reflexivity|]. f_equal. destruct w; simpl in *. subst. reflexivity.
  - destruct Hn as [Hc Hn]. simpl.
    rewrite (dashp_char B w a rest Ha Hc).
    destruct (IH (set_active_dashp_command (Some rest) w) eq_refl Hn) as [IH1 IH2].
    rewrite IH1, IH2. split; reflexivity.
Qed.

(** X3: while the alternate command source holds a string without NUL
    cells, as many calls as the string has cells return its characters in
    order (each masked with 0377); none of these calls polls, reads,
    flushes or changes anything but the cursor, which ends on the
    terminator. *)
Theorem dashp_string_in_order (B : build) (w : world) (p : string) :
  active_dashp_command w = Some p ->
  no_nul p ->
  calls B (String.length p) w
  = map (fun s => Returned (fst s) (set_active_dashp_command (Some (snd s)) w))
        (cursor_steps p)
  /\ after B (String.length p) w = Some (set_active_dashp_command (Some ""%string) w)
  /\ map value_of (calls B (String.length p) w) = map (fun s => Some (fst s)) (cursor_steps p).
Proof.
  intros Ha Hn. destruct (cursor_steps_calls B p w Ha Hn) as [H1 H2].
  split; [exact H1|]. split; [exact H2|].
  rewrite H1, map_map. reflexivity.
Qed.

Lemma dashp_string_in_order_witness :
  let w := set_active_dashp_command (Some "q!"%string) (idle [] [] []) in
  map value_of (calls macos 2 w) = [Some 113; Some 33]
  /\ after macos 2 w = Some (set_active_dashp_command (Some ""%string) w).
Proof.
  cbv zeta.
  destruct (dashp_string_in_order macos
              (set_active_dashp_command (Some "q!"%string) (idle [] [] [])) "q!"%string)
    as [_ [H2 H3]].
  - reflexivity.
  - simpl. repeat split; vm_compute; discriminate.
  - split; [exact H3 | exact H2].
Defined.

(** ** getchr: the fallback on standard error *)

Lemma fallback_drain (B : build) (data : list byte) :
  forall (pre post : list byte) (x : world),
    active_dashp_command x = None -> stderr_wanted B x = true ->
    errbuf x = pre ++ data ++ post ->
    errpos x = Z.of_nat (List.length pre) ->
    errbuf_sz x = Z.of_nat (List.length pre + List.length data) ->
    map value_of (calls B (List.length data) x) = map (fun b => Some (uchar_val b)) data
    /\ after B (List.length data) x = Some (set_errpos (errbuf_sz x) x).
Proof.
  induction data as [|a l IH]; intros pre post x Ha Hw Hbuf Hpos Hsz.
  - simpl. split; [reflexivity|]. f_equal.
    rewrite Hsz, Nat.add_0_r, <- Hpos. destruct x; reflexivity.
  - assert (Hstep : getchr B x = Returned (uchar_val a) (set_errpos (errpos x + 1) x)).
    { rewrite fallback_next; try assumption.
      - rewrite Hbuf, Hpos, Nat2Z.id. cbn [app]. rewrite nth_middle. reflexivity.
      - rewrite Hpos, Hsz. simpl List.length. lia.
      - lia. }
    destruct (IH (pre ++ [a]) post (set_errpos (errpos x + 1) x)) as [IH1 IH2].
    + exact Ha.
    + exact Hw.
    + simpl. rewrite Hbuf, <- app_assoc. reflexivity.
    + simpl. rewrite Hpos, length_app. simpl. lia.
    + simpl. rewrite Hsz, length_app. simpl. lia.
    + simpl. rewrite Hstep. simpl in IH1, IH2 |- *. rewrite IH1, IH2.
      split; reflexivity.
Qed.

(** X4: when the buffer of the fallback is used up, [poll] reports
    standard error readable and [read] stores n > 0 bytes, the next n
    calls return exactly these bytes, in order; together they make one
    [poll] and one [read] and no other call, and leave [errpos] at the end
    of the buffer. *)
Theorem fallback_bytes_in_order (B : build) (w : world) (p : poll_reply)
    (polls : list poll_reply) (r : read_reply) (reads : list read_reply) :
  active_dashp_command w = None ->
  stderr_wanted B w = true ->
  errpos w = errbuf_sz w ->
  poll_in w = p :: polls -> readable B p ->
  stderr_in w = r :: reads ->
  rd_data r <> [] ->
  rd_result r = Z.of_nat (List.length (rd_data r)) ->
  let n := List.length (rd_data r) in
  let w' := set_errpos (rd_result r) (took_read r reads (took_poll polls w)) in
  map value_of (calls B n w) = map (fun b => Some (uchar_val b)) (rd_data r)
  /\ after B n w = Some w'
  /\ trace w' = (trace w ++ [EvPoll]) ++ [EvReadStderr]
  /\ poll_in w' = polls /\ stderr_in w' = reads /\ tty_in w' = tty_in w.
Proof.
  intros Ha Hw He Hpoll [Hr1 Hr2] Hin Hne Hres n w'.
  split; [|split; [|repeat split]]; subst n w'.
  all: destruct (rd_data r) as [|a l] eqn:Hd; [contradiction|].
  all: assert (Hpos : (0 <? rd_result r) = true)
         by (apply Z.ltb_lt; rewrite Hres; simpl List.length; lia).
  all: assert (Hfirst : getchr B w
          = Returned (uchar_val a)
              (set_errpos (0 + 1) (set_errpos 0 (took_read r reads (took_poll polls w))))).
  1, 3: rewrite no_dashp by exact Ha;
    unfold getchr_input, getchr_stderr, stderr_refill;
    rewrite Hw, He, Z.eqb_refl, Hpoll;
    destruct (Z.leb_spec (poll_result p) 0) as [Hle|_]; [lia|];
    destruct (Z.eqb_spec (Z.land (poll_revents p) (POLLRDNORM B)) 0) as [E|_];
      [contradiction|];
    simpl; rewrite Hin; simpl;
    rewrite Z.gtb_ltb, Hpos; simpl;
    destruct (Z.leb_spec (rd_result r) 0) as [Hle|_];
      [apply Z.ltb_lt in Hpos; lia|];
    rewrite Hd, low8_char_of_byte; reflexivity.
  all: destruct (fallback_drain B l [a] (skipn (List.length (a :: l)) (errbuf w))
              (set_errpos (0 + 1) (set_errpos 0 (took_read r reads (took_poll polls w)))))
         as [D1 D2];
    [ exact Ha | exact Hw | simpl; rewrite Hd; reflexivity | reflexivity
    | simpl; rewrite Hres; simpl List.length; lia | ].
  - simpl. rewrite Hfirst. simpl in D1 |- *. rewrite D1. reflexivity.
  - simpl. rewrite Hfirst. simpl in D2 |- *. rewrite D2. reflexivity.
Qed.

Lemma fallback_bytes_in_order_witness :
  let w := idle [{| poll_result := 1; poll_revents := 64 |}]
                [{| rd_result := 2; rd_data := [x61; x62] |}] [] in
  map value_of (calls macos 2 w) = [Some 97; Some 98].
Proof.
  cbv zeta.
  apply (fallback_bytes_in_order macos
           (idle [{| poll_result := 1; poll_revents := 64 |}]
                 [{| rd_result := 2; rd_data := [x61; x62] |}] [])
           {| poll_result := 1; poll_revents := 64 |} []
           {| rd_result := 2; rd_data := [x61; x62] |} []).
  - reflexivity.
  - reflexivity.
  - reflexivity.
  - reflexivity.
  - split; [simpl; lia | vm_compute; discriminate].
  - reflexivity.
  - simpl. discriminate.
  - reflexivity.
Defined.

(** X5: once the fallback has an empty buffer ([errbuf_sz] is 0) behind a
    position that is not 0 -- the state in which it returns EOF -- every
    further call returns EOF again and changes nothing: standard error is
    neither polled nor read again and the device is not read. *)
Theorem fallback_eof_repeats (B : build) (w : world) (n : nat) :
  active_dashp_command w = None ->
  stderr_wanted B w = true ->
  errbuf_sz w = 0 ->
  errpos w <> 0 ->
  calls B n w = repeat (Returned (C_EOF B) w) n /\ after B n w = Some w.
Proof.
  intros Ha Hw Hsz Hpos.
  assert (Hstep : getchr B w = Returned (C_EOF B) w).
  { rewrite no_dashp by exact Ha.
    unfold getchr_input, getchr_stderr, stderr_refill. rewrite Hw, Hsz.
    destruct (Z.eqb_spec (errpos w) 0) as [E|_]; [contradiction|].
    simpl. rewrite Hsz. simpl.
    destruct (Z.eqb_spec (errpos w) 0) as [E|_]; [contradiction|reflexivity]. }
  induction n as [|k [IH1 IH2]]; simpl; [split; reflexivity|].
  rewrite Hstep, IH1, IH2. split; reflexivity.
Qed.

Lemma fallback_eof_repeats_witness :
  let w0 := idle [{| poll_result := 1; poll_revents := 64 |};
                  {| poll_result := 1; poll_revents := 64 |}]
                 [{| rd_result := 2; rd_data := [x61; x62] |};
                  {| rd_result := 0; rd_data := [] |}] [] in
  let w := match after macos 3 w0 with Some x => x | None => w0 end in
  map value_of (calls macos 3 w0) = [Some 97; Some 98; Some (-1)]
  /\ calls macos 3 w = repeat (Returned (-1) w) 3.
Proof.
  cbv zeta. split; [reflexivity|].
  apply (fallback_eof_repeats macos
           (match after macos 3
                    (idle [{| poll_result := 1; poll_revents := 64 |};
                           {| poll_result := 1; poll_revents := 64 |}]
                          [{| rd_result := 2; rd_data := [x61; x62] |};
                           {| rd_result := 0; rd_data := [] |}] [])
            with Some x => x
            | None => idle [] [] []
            end) 3).
  - reflexivity.
  - reflexivity.
  - reflexivity.
  - vm_compute. discriminate.
Defined.

(** X6: a [read] on standard error that fails (negative result), or that
    transfers nothing while [errpos] is 0, is not fatal and is not
    reported: the flag [use_stderr] is cleared and the same call goes on
    to read the device. *)
Theorem fallback_failure_falls_to_device (B : build) (w : world) (p : poll_reply)
    (polls : list poll_reply) (r : read_reply) (reads : list read_reply) :
  stderr_wanted B w = true ->
  errpos w = errbuf_sz w ->
  poll_in w = p :: polls -> readable B p ->
  stderr_in w = r :: reads ->
  rd_result r < 0 \/ (rd_result r = 0 /\ errpos w = 0) ->
  let w' := set_use_stderr false (took_read r reads (took_poll polls w)) in
  getchr_input B w = getchr_loop B (tty_in w) w'
  /\ use_stderr w' = false.
Proof.
  intros Hw He Hpoll [Hr1 Hr2] Hin Hbad w'. split; [|reflexivity]. subst w'.
  unfold getchr_input, getchr_stderr, stderr_refill.
  rewrite Hw, He, Z.eqb_refl, Hpoll.
  destruct (Z.leb_spec (poll_result p) 0) as [Hle|_]; [lia|].
  destruct (Z.eqb_spec (Z.land (poll_revents p) (POLLRDNORM B)) 0) as [E|_];
    [contradiction|].
  simpl. rewrite Hin. simpl.
  destruct (Z.gtb_spec (rd_result r) 0) as [Hgt|_]; [lia|]. simpl.
  destruct (Z.leb_spec (rd_result r) 0) as [_|Hgt]; [|lia].
  destruct Hbad as [Hneg|[H0 Hp]].
  - destruct (Z.ltb_spec (rd_result r) 0) as [_|Hge]; [|lia].
    rewrite orb_true_r. reflexivity.
  - rewrite Hp. reflexivity.
Qed.

Lemma fallback_failure_falls_to_device_witness :
  let w := idle [{| poll_result := 1; poll_revents := 64 |}]
                [{| rd_result := -1; rd_data := [] |}]
                [{| ir_result := 1; ir_uc := x71 |}] in
  getchr_input macos w
  = getchr_loop macos [{| ir_result := 1; ir_uc := x71 |}]
      (set_use_stderr false
         (took_read {| rd_result := -1; rd_data := [] |} [] (took_poll [] w)))
  /\ value_of (getchr macos w) = Some 113.
Proof.
  cbv zeta. split; [|reflexivity].
  apply (fallback_failure_falls_to_device macos
           (idle [{| poll_result := 1; poll_revents := 64 |}]
                 [{| rd_result := -1; rd_data := [] |}]
                 [{| ir_result := 1; ir_uc := x71 |}])
           {| poll_result := 1; poll_revents := 64 |} []
           {| rd_result := -1; rd_data := [] |} []).
  - reflexivity.
  - reflexivity.
  - reflexivity.
  - split; [simpl; lia | vm_compute; discriminate].
  - reflexivity.
  - left. simpl. lia.
Defined.

(** The device loop leaves the statics of the fallback alone. *)
Lemma loop_keeps_buffer (B : build) (reads : list iread_reply) :
  forall w,
    errpos (world_of (getchr_loop B reads w)) = errpos w
    /\ errbuf_sz (world_of (getchr_loop B reads w)) = errbuf_sz w
    /\ errbuf (world_of (getchr_loop B reads w)) = errbuf w
    /\ tty (world_of (getchr_loop B reads w)) = tty w.
Proof.
  induction reads as [|r rest IH]; intros w; simpl.
  - repeat split.
  - destruct (ir_result r =? READ_INTR B); [repeat split|].
    destruct (ir_result r <? 0); [repeat split|].
    destruct (LESSTEST B && (char_of_byte (ir_uc r) =? LESS_DUMP_CHAR B)).
    + destruct (IH (log EvDumpScreen (took_iread rest w))) as [H1 [H2 [H3 H4]]].
      repeat split; assumption.
    + destruct (ir_result r =? 1); [repeat split|].
      destruct (IH (took_iread rest w)) as [H1 [H2 [H3 H4]]].
      repeat split; assumption.
Qed.

Lemma refill_keeps_inv (B : build) (w : world) :
  fallback_inv w -> reads_fit w ->
  match stderr_refill B w with
  | RefillDone w' =>
      fallback_inv w' /\ reads_fit w' /\ (0 < errbuf_sz w' -> errpos w' < errbuf_sz w')
  | RefillNoStderr w' | RefillBlocked w' => fallback_inv w' /\ reads_fit w'
  end.
Proof.
  intros [Hp Hb] Hfit. unfold stderr_refill.
  destruct (Z.eqb_spec (errpos w) (errbuf_sz w)) as [E|Hne].
  - destruct (poll_in w) as [|p polls]; [split; [split|]; assumption|].
    destruct ((poll_result p <=? 0) || (Z.land (poll_revents p) (POLLRDNORM B) =? 0)).
    + split; [split|]; assumption.
    + change (stderr_in (took_poll polls w)) with (stderr_in w).
      assert (Hfit' := Hfit). unfold reads_fit in Hfit'.
      destruct (stderr_in w) as [|r reads] eqn:Hin.
      * split; [split; assumption | exact Hfit].
      * inversion Hfit' as [|r0 l0 Hr Hrest]; subst.
        cbv zeta.
        change (errbuf_sz (took_read r reads (took_poll polls w))) with (rd_result r).
        destruct (Z.gtb_spec (rd_result r) 0) as [Hgt|Hle];
          unfold fallback_inv, reads_fit; simpl; repeat split; try lia; exact Hrest.
  - split; [split; assumption|]. split; [exact Hfit|]. intros H. specialize (Hb H). lia.
Qed.

Lemma stderr_keeps_inv (B : build) (w : world) :
  fallback_inv w -> reads_fit w ->
  match getchr_stderr B w with
  | ErrOut c w' =>
      fallback_inv w' /\ reads_fit w'
      /\ 0 <= errpos w' - 1 < errbuf_sz w' /\ errbuf_sz w' <= ERRBUF_SIZE
      /\ c = char_of_byte (nth (Z.to_nat (errpos w' - 1)) (errbuf w') x00)
  | ErrReturn _ w' | ErrNoStderr w' | ErrBlocked w' => fallback_inv w' /\ reads_fit w'
  end.
Proof.
  intros Hinv Hfit. unfold getchr_stderr.
  destruct (stderr_wanted B w); [|split; assumption].
  pose proof (refill_keeps_inv B w Hinv Hfit) as Hr.
  destruct (stderr_refill B w) as [w3|w3|w3]; try exact Hr.
  destruct Hr as [[Hp Hb] [Hf Hlt]].
  destruct (Z.leb_spec (errbuf_sz w3) 0) as [Hle|Hgt].
  - destruct ((errpos w3 =? 0) || (errbuf_sz w3 <? 0)); split; try exact Hf; split; assumption.
  - specialize (Hlt Hgt). specialize (Hb Hgt).
    unfold fallback_inv. simpl. repeat split; try lia; try exact Hf.
    replace (errpos w3 + 1 - 1) with (errpos w3) by lia. reflexivity.
Qed.

(** X7: the buffer of the fallback is never read outside its bounds.  The
    consistency of [errpos] and [errbuf_sz] (true of their initial values
    0 and 0) is kept by every call, as long as [read] never reports more
    than the 512 bytes it was asked for; and whenever a call takes a byte
    out of the buffer, its index is at least 0 and below [errbuf_sz],
    which is at most 512. *)
Theorem fallback_index_in_bounds (B : build) (w : world) :
  fallback_inv w ->
  reads_fit w ->
  fallback_inv (world_of (getchr B w))
  /\ reads_fit (world_of (getchr B w))
  /\ forall w1 c w',
       getchr_dashp w = DashpFallthrough w1 -> getchr_stderr B w1 = ErrOut c w' ->
       0 <= errpos w' - 1 < errbuf_sz w' /\ errbuf_sz w' <= ERRBUF_SIZE
       /\ c = char_of_byte (nth (Z.to_nat (errpos w' - 1)) (errbuf w') x00).
Proof.
  intros Hinv Hfit.
  assert (Hd : forall w1, match getchr_dashp w with
                          | DashpReturn _ x | DashpFallthrough x => x end = w1 ->
                          fallback_inv w1 /\ reads_fit w1).
  { intros w1 <-. unfold getchr_dashp.
    destruct (active_dashp_command w) as [p|]; [|split; assumption].
    destruct (deref p =? NUL); [|split; assumption].
    simpl. destruct (add_newline w =? 0); split; assumption. }
  split; [|split].
  - unfold getchr. destruct (getchr_dashp w) as [v w1|w1]; simpl.
    + apply (Hd w1 eq_refl).
    + destruct (Hd w1 eq_refl) as [I1 F1]. unfold getchr_input.
      pose proof (stderr_keeps_inv B w1 I1 F1) as Hs.
      destruct (getchr_stderr B w1) as [u w2|c w2|w2|w2]; simpl; try tauto.
      destruct Hs as [[Hp Hb] _].
      destruct (loop_keeps_buffer B (tty_in w2) w2) as [L1 [L2 _]].
      unfold fallback_inv. rewrite L1, L2. split; assumption.
  - unfold getchr. destruct (getchr_dashp w) as [v w1|w1]; simpl.
    + apply (Hd w1 eq_refl).
    + destruct (Hd w1 eq_refl) as [I1 F1]. unfold getchr_input.
      pose proof (stderr_keeps_inv B w1 I1 F1) as Hs.
      destruct (getchr_stderr B w1) as [u w2|c w2|w2|w2]; simpl; try tauto.
      destruct Hs as [_ Hf].
      destruct (loop_frame B (tty_in w2) w2) as [_ [_ [_ [_ L5]]]].
      unfold reads_fit. rewrite L5. exact Hf.
  - intros w1 c w' Hdp Hs.
    assert (H1 : fallback_inv w1 /\ reads_fit w1).
    { apply Hd. rewrite Hdp. reflexivity. }
    destruct H1 as [I1 F1].
    pose proof (stderr_keeps_inv B w1 I1 F1) as Hk. rewrite Hs in Hk. tauto.
Qed.

Lemma fallback_index_in_bounds_witness :
  let w := idle [{| poll_result := 1; poll_revents := 64 |}]
                [{| rd_result := 2; rd_data := [x61; x62] |}] [] in
  fallback_inv (world_of (getchr macos w)) /\ reads_fit (world_of (getchr macos w)).
Proof.
  cbv zeta.
  destruct (fallback_index_in_bounds macos
              (idle [{| poll_result := 1; poll_revents := 64 |}]
                    [{| rd_result := 2; rd_data := [x61; x62] |}] []))
    as [H1 [H2 _]].
  - unfold fallback_inv. simpl. lia.
  - unfold reads_fit. simpl. constructor; [unfold ERRBUF_SIZE; simpl; lia | constructor].
  - split; [exact H1 | exact H2].
Defined.

(** ** getchr: the calls it makes *)

(** What the device loop adds to the trace. *)
Lemma loop_events (B : build) (reads : list iread_reply) :
  forall w, exists evs,
    trace (world_of (getchr_loop B reads w)) = trace w ++ evs
    /\ ~ In EvError evs
    /\ flushed false evs = true
    /\ match getchr_loop B reads w with
       | Quit st _ =>
           st = QUIT_ERROR B
           /\ exists pre, evs = pre ++ [EvFlush; EvIread (tty w); EvQuit (QUIT_ERROR B)]
                          /\ existsb is_quit pre = false
       | _ => existsb is_quit evs = false
       end.
Proof.
  induction reads as [|r rest IH]; intros w; simpl.
  - exists [EvFlush]. repeat split. intros [H|[]]. discriminate.
  - destruct (ir_result r =? READ_INTR B).
    { exists [EvFlush; EvIread (tty w)]. repeat split.
      intros [H|[H|[]]]; discriminate. }
    destruct (ir_result r <? 0).
    { exists [EvFlush; EvIread (tty w); EvQuit (QUIT_ERROR B)]. simpl.
      split; [rewrite <- app_assoc; reflexivity|]. split.
      - intros [H|[H|[H|[]]]]; discriminate.
      - repeat split. exists []. split; reflexivity. }
    destruct (LESSTEST B && (char_of_byte (ir_uc r) =? LESS_DUMP_CHAR B)).
    + destruct (IH (log EvDumpScreen (took_iread rest w))) as [evs [Ht [He [Hf Hq]]]].
      exists ([EvFlush; EvIread (tty w); EvDumpScreen] ++ evs).
      split; [rewrite Ht; simpl; rewrite <- !app_assoc; reflexivity|]. split.
      * intros Hin. apply in_app_or in Hin. destruct Hin as [[H|[H|[H|[]]]]|H];
          try discriminate. contradiction.
      * split; [simpl; exact Hf|].
        destruct (getchr_loop B rest (log EvDumpScreen (took_iread rest w))) as [v x|st x|x];
          simpl; try exact Hq.
        destruct Hq as [Hst [pre [Hev Hpre]]]. split; [exact Hst|].
        exists ([EvFlush; EvIread (tty w); EvDumpScreen] ++ pre).
        split; [rewrite Hev; simpl; reflexivity | simpl; exact Hpre].
    + destruct (ir_result r =? 1).
      { exists [EvFlush; EvIread (tty w)]. repeat split.
        intros [H|[H|[]]]; discriminate. }
      destruct (IH (took_iread rest w)) as [evs [Ht [He [Hf Hq]]]].
      exists ([EvFlush; EvIread (tty w)] ++ evs).
      split; [rewrite Ht; simpl; rewrite <- !app_assoc; reflexivity|]. split.
      * intros Hin. apply in_app_or in Hin. destruct Hin as [[H|[H|[]]]|H];
          try discriminate. contradiction.
      * split; [simpl; exact Hf|].
        destruct (getchr_loop B rest (took_iread rest w)) as [v x|st x|x];
          simpl; try exact Hq.
        destruct Hq as [Hst [pre [Hev Hpre]]]. split; [exact Hst|].
        exists ([EvFlush; EvIread (tty w)] ++ pre).
        split; [rewrite Hev; simpl; reflexivity | simpl; exact Hpre].
Qed.

(** What the fallback block adds to the trace: nothing, a [poll], or a
    [poll] and a [read]. *)
Lemma stderr_events (B : build) (w : world) :
  let w' := match getchr_stderr B w with
            | ErrReturn _ x | ErrOut _ x | ErrNoStderr x | ErrBlocked x => x
            end in
  tty w' = tty w
  /\ (trace w' = trace w ++ [] \/ trace w' = trace w ++ [EvPoll]
      \/ trace w' = trace w ++ [EvPoll; EvReadStderr]).
Proof.
  unfold getchr_stderr, stderr_refill.
  destruct (stderr_wanted B w); [|split; [reflexivity | left; symmetry; apply app_nil_r]].
  destruct (errpos w =? errbuf_sz w).
  - destruct (poll_in w) as [|p polls];
      [split; [reflexivity | left; symmetry; apply app_nil_r]|].
    destruct ((poll_result p <=? 0) || (Z.land (poll_revents p) (POLLRDNORM B) =? 0));
      [split; [reflexivity | right; left; reflexivity]|].
    simpl. destruct (stderr_in w) as [|r reads];
      [split; [reflexivity | right; left; reflexivity]|].
    simpl.
    destruct (rd_result r >? 0); simpl;
      destruct (rd_result r <=? 0);
      try destruct ((errpos w =? 0) || (rd_result r <? 0));
      try destruct ((0 =? 0) || (rd_result r <? 0));
      simpl; (split; [reflexivity | right; right; rewrite <- app_assoc; reflexivity]).
  - destruct (errbuf_sz w <=? 0);
      [destruct ((errpos w =? 0) || (errbuf_sz w <? 0))|];
      (split; [reflexivity | left; symmetry; apply app_nil_r]).
Qed.

(** X8: a call of [getchr] only appends to the record of outside calls,
    and among the calls it makes there is no [error()] (lines 292-295);
    every [iread] comes directly after a [flush()]; and [quit] is called
    only with QUIT_ERROR, directly after an [iread], as the last thing the
    call does -- a call that returns has not called [quit]. *)
Theorem getchr_outside_calls (B : build) (w : world) :
  exists evs,
    trace (world_of (getchr B w)) = trace w ++ evs
    /\ ~ In EvError evs
    /\ flushed false evs = true
    /\ match getchr B w with
       | Quit st _ =>
           st = QUIT_ERROR B
           /\ exists pre, evs = pre ++ [EvFlush; EvIread (tty w); EvQuit (QUIT_ERROR B)]
                          /\ existsb is_quit pre = false
       | _ => existsb is_quit evs = false
       end.
Proof.
  unfold getchr.
  pose proof (dashp_keeps_statics w) as Hd. cbv zeta in Hd.
  assert (Htty : tty (match getchr_dashp w with
                      | DashpReturn _ x | DashpFallthrough x => x end) = tty w).
  { unfold getchr_dashp. destruct (active_dashp_command w) as [p|]; [|reflexivity].
    destruct (deref p =? NUL); [|reflexivity]. simpl.
    destruct (add_newline w =? 0); reflexivity. }
  destruct (getchr_dashp w) as [v w1|w1]; simpl.
  - destruct Hd as [_ [_ [_ [Ht _]]]].
    exists []. rewrite app_nil_r. repeat split; auto.
  - destruct Hd as [_ [_ [_ [Ht _]]]]. unfold getchr_input.
    pose proof (stderr_events B w1) as Hs. cbv zeta in Hs.
    destruct (getchr_stderr B w1) as [u w2|c w2|w2|w2]; simpl; destruct Hs as [Hty Hs].
    1, 2, 4:
      destruct Hs as [Hs|[Hs|Hs]]; rewrite Hs, Ht;
      eexists; (split; [reflexivity|]); simpl; repeat split; auto;
      intros Hin; simpl in Hin; intuition discriminate.
    destruct (loop_events B (tty_in w2) w2) as [evs [Hl [He [Hf Hq]]]].
    rewrite Hty, Htty in Hq.
    destruct Hs as [Hs|[Hs|Hs]]; rewrite Hs, Ht in Hl; rewrite Hl, <- app_assoc;
      eexists; (split; [reflexivity|]); simpl;
      (split; [intros Hin; simpl in Hin; intuition discriminate|]);
      (split; [exact Hf|]);
      destruct (getchr_loop B (tty_in w2) w2) as [v x|st x|x]; simpl; try exact Hq;
      destruct Hq as [Hst [pre [Hev Hpre]]]; (split; [exact Hst|]);
      rewrite Hev.
    + exists (EvPoll :: pre). split; [reflexivity | exact Hpre].
    + exists (EvPoll :: EvReadStderr :: pre). split; [reflexivity | exact Hpre].
Qed.

(** ** getchr: attempts that deliver nothing *)




(** ** open_tty and open_getchr on Unix *)

Section LocatorMore.

Import Locator.

Lemma open_tty_nonneg (B : build) (S : system) (st : state) :
  0 <= fst (open_tty B S st).
Proof.
  unfold open_tty, open_tty_device, is_lesstest.
  destruct (LESSTEST B); destruct (ttyin_name st) as [name|];
    destruct (HAVE_TTYNAME B); destruct (sys_ttyname S 2) as [dev|];
    destruct (MVS B); simpl;
    repeat (match goal with
            | |- context [?c <? 0] => destruct (Z.ltb_spec c 0); simpl
            end);
    lia.
Qed.

End LocatorMore.

(** X10: with the test harness compiled in and a playback path set that
    can be opened, [open_tty] returns the descriptor of that path and
    makes no other call: [ttyname] is not asked and "/dev/tty" is not
    opened (on MVS the [fcntl] on the result follows). *)
Theorem playback_path_wins (B : Locator.build) (S : Locator.system)
    (st : Locator.state) (name : string) :
  Locator.LESSTEST B = true ->
  Locator.ttyin_name st = Some name ->
  0 <= Locator.sys_open S (Locator.opens st) name ->
  let fd := Locator.sys_open S (Locator.opens st) name in
  fst (Locator.open_tty B S st) = fd
  /\ Locator.made (snd (Locator.open_tty B S st))
     = Locator.made st ++ Locator.COpen (Locator.OS2 B) name
                          :: (if Locator.MVS B then [Locator.CFcntl fd] else [])
  /\ Locator.ttyin_name (snd (Locator.open_tty B S st)) = Some name.
Proof.
  intros HL Hn Hfd fd. subst fd.
  unfold Locator.open_tty, Locator.open_tty_device, Locator.is_lesstest.
  rewrite HL, Hn.
  assert (Hltb : (Locator.sys_open S (Locator.opens st) name <? 0) = false)
    by (apply Z.ltb_ge; exact Hfd).
  destruct (Locator.HAVE_TTYNAME B); destruct (Locator.MVS B);
    simpl; rewrite ?Hltb; simpl; rewrite ?Hltb; simpl;
    repeat split; try rewrite <- app_assoc; try reflexivity; exact Hn.
Qed.

Lemma playback_path_wins_witness :
  let B := {| Locator.LESSTEST := true; Locator.HAVE_TTYNAME := true;
              Locator.OS2 := false; Locator.MVS := false |} in
  let S := {| Locator.sys_open := fun _ p => if String.eqb p "/tmp/keys" then 7 else 4;
              Locator.sys_ttyname := fun _ => Some "/dev/ttys001"%string |} in
  let st := {| Locator.ttyin_name := Some "/tmp/keys"%string; Locator.made := [] |} in
  fst (Locator.open_tty B S st) = 7
  /\ Locator.made (snd (Locator.open_tty B S st))
     = [Locator.COpen false "/tmp/keys"%string].
Proof.
  cbv zeta.
  destruct (playback_path_wins
              {| Locator.LESSTEST := true; Locator.HAVE_TTYNAME := true;
                 Locator.OS2 := false; Locator.MVS := false |}
              {| Locator.sys_open := fun _ p => if String.eqb p "/tmp/keys" then 7 else 4;
                 Locator.sys_ttyname := fun _ => Some "/dev/ttys001"%string |}
              {| Locator.ttyin_name := Some "/tmp/keys"%string; Locator.made := [] |}
              "/tmp/keys"%string) as [H1 [H2 _]].
  - reflexivity.
  - reflexivity.
  - simpl. lia.
  - split; [exact H1 | exact H2].
Defined.

(** X11: on a build without MSDOS_COMPILER, [open_getchr] sets [tty] to
    what [open_tty] returns -- the descriptor of the first candidate path
    that opens, or 2 when none does, and never negative -- records the
    calls of [open_tty], and leaves every other variable of the session
    and the console as they were; [close_getchr] then does nothing at
    all: the descriptor is not closed. *)
Theorem unix_session_keeps_descriptor (B : Session.build) (S : Locator.system)
    (s : Session.state) :
  Session.MSDOS_COMPILER B = Session.NO_MSDOS ->
  let s1 := Session.open_getchr B S s in
  Session.tty s1 = fst (Locator.open_tty (Session.unix B) S (Session.loc s))
  /\ Session.tty s1
     = match snd (Locator.first_openable S (Locator.opens (Session.loc s))
                    (Locator.candidates (Session.unix B) S (Session.loc s))) with
       | Some fd => fd
       | None => 2
       end
  /\ 0 <= Session.tty s1
  /\ Session.loc s1 = snd (Locator.open_tty (Session.unix B) S (Session.loc s))
  /\ Session.init_console_input_mode s1 = Session.init_console_input_mode s
  /\ Session.curr_console_input_mode s1 = Session.curr_console_input_mode s
  /\ Session.base_console_input_mode s1 = Session.base_console_input_mode s
  /\ Session.mouse_console_input_mode s1 = Session.mouse_console_input_mode s
  /\ Session.fd0 s1 = Session.fd0 s
  /\ Session.console_mode s1 = Session.console_mode s
  /\ Session.conin s1 = Session.conin s
  /\ Session.conin_open s1 = Session.conin_open s
  /\ Session.dup0 s1 = Session.dup0 s
  /\ Session.con s1 = Session.con s
  /\ Session.made s1 = Session.made s
  /\ Session.close_getchr B s1 = s1.
Proof.
  intros HB s1. subst s1. unfold Session.open_getchr, Session.close_getchr. rewrite HB.
  pose proof (open_tty_nonneg (Session.unix B) S (Session.loc s)) as Hpos.
  destruct (open_tty_refines (Session.unix B) S (Session.loc s)) as [_ Hfd].
  destruct (Locator.open_tty (Session.unix B) S (Session.loc s)) as [fd l].
  simpl in *. repeat split; assumption.
Qed.

Lemma unix_session_keeps_descriptor_witness :
  let B := {| Session.MSDOS_COMPILER := Session.NO_MSDOS;
              Session.ENABLE_PROCESSED_INPUT := 1; Session.ENABLE_MOUSE_INPUT := 16;
              Session.unix := {| Locator.LESSTEST := false; Locator.HAVE_TTYNAME := true;
                                 Locator.OS2 := false; Locator.MVS := false |} |} in
  let S := {| Locator.sys_open := fun _ p => if String.eqb p "/dev/tty" then 5 else -1;
              Locator.sys_ttyname := fun _ => Some "/dev/ttys001"%string |} in
  Session.tty (Session.open_getchr B S Session.console0) = 5
  /\ Session.console_mode (Session.open_getchr B S Session.console0) = 0x1F7
  /\ Session.close_getchr B (Session.open_getchr B S Session.console0)
     = Session.open_getchr B S Session.console0.
Proof.
  cbv zeta.
  destruct (unix_session_keeps_descriptor
              {| Session.MSDOS_COMPILER := Session.NO_MSDOS;
                 Session.ENABLE_PROCESSED_INPUT := 1; Session.ENABLE_MOUSE_INPUT := 16;
                 Session.unix := {| Locator.LESSTEST := false; Locator.HAVE_TTYNAME := true;
                                    Locator.OS2 := false; Locator.MVS := false |} |}
              {| Locator.sys_open := fun _ p => if String.eqb p "/dev/tty" then 5 else -1;
                 Locator.sys_ttyname := fun _ => Some "/dev/ttys001"%string |}
              Session.console0)
    as [_ [H2 [_ [_ [_ [_ [_ [_ [_ [H10 [_ [_ [_ [_ [_ H16]]]]]]]]]]]]]]].
  - reflexivity.
  - split; [rewrite H2; reflexivity|]. split; [rewrite H10; reflexivity | exact H16].
Defined.

(** ** The console modes of the WIN32C build *)

Section ModeBits.

Import Session.

Lemma testbit_clear (x f n : Z) :
  0 <= n ->
  Z.testbit (clear x f) n
  = (n <? 32) && Z.testbit x n && negb (Z.testbit f n).
Proof.
  intros Hn. unfold clear, dword.
  destruct (Z.ltb_spec n 32) as [Hlt|Hge].
  - rewrite Z.mod_pow2_bits_low by lia.
    rewrite Z.land_spec, Z.lnot_spec by lia. reflexivity.
  - rewrite Z.mod_pow2_bits_high by lia. reflexivity.
Qed.

Lemma testbit_small (g n : Z) :
  0 <= g < 2 ^ 32 -> 32 <= n -> Z.testbit g n = false.
Proof.
  intros Hg Hn. rewrite <- (Z.mod_small g (2 ^ 32)) by lia.
  apply Z.mod_pow2_bits_high. lia.
Qed.

(** Clearing a flag leaves it clear. *)
Lemma clear_clears (x f : Z) : Z.land (clear x f) f = 0.
Proof.
  apply Z.bits_inj'. intros n Hn.
  rewrite Z.land_spec, Z.bits_0, testbit_clear by exact Hn.
  destruct (n <? 32), (Z.testbit x n), (Z.testbit f n); reflexivity.
Qed.

(** Clearing a flag keeps the flags that are set, fit in 32 bits and do
    not overlap it. *)
Lemma clear_keeps (x f g : Z) :
  0 <= g < 2 ^ 32 -> Z.land g f = 0 -> Z.land x g = g ->
  Z.land (clear x f) g = g.
Proof.
  intros Hg Hgf Hxg. apply Z.bits_inj'. intros n Hn.
  rewrite Z.land_spec, testbit_clear by exact Hn.
  destruct (Z.testbit g n) eqn:Eg; [|rewrite !andb_false_r; reflexivity].
  assert (H32 : (n <? 32) = true).
  { destruct (Z.ltb_spec n 32) as [_|Hge]; [reflexivity|].
    rewrite (testbit_small g n Hg Hge) in Eg. discriminate. }
  assert (Hx : Z.testbit x n = true).
  { pose proof (f_equal (fun z => Z.testbit z n) Hxg) as H. simpl in H.
    rewrite Z.land_spec, Eg, andb_true_r in H. exact H. }
  assert (Hf : Z.testbit f n = false).
  { pose proof (f_equal (fun z => Z.testbit z n) Hgf) as H. simpl in H.
    rewrite Z.land_spec, Eg, Z.bits_0 in H. exact H. }
  rewrite H32, Hx, Hf. reflexivity.
Qed.

(** Clearing a flag sets no flag. *)
Lemma clear_sets_nothing (x f g : Z) :
  Z.land x g = 0 -> Z.land (clear x f) g = 0.
Proof.
  intros Hxg. apply Z.bits_inj'. intros n Hn.
  rewrite Z.land_spec, testbit_clear, Z.bits_0 by exact Hn.
  pose proof (f_equal (fun z => Z.testbit z n) Hxg) as H. simpl in H.
  rewrite Z.land_spec, Z.bits_0 in H.
  destruct (n <? 32), (Z.testbit x n), (Z.testbit f n), (Z.testbit g n);
    simpl in *; congruence.
Qed.

Lemma land_lor_r (x g : Z) : Z.land (Z.lor x g) g = g.
Proof.
  apply Z.bits_inj'. intros n Hn. rewrite Z.land_spec, Z.lor_spec.
  destruct (Z.testbit x n), (Z.testbit g n); reflexivity.
Qed.

Lemma land_lor_l (x y g : Z) : Z.land x g = g -> Z.land (Z.lor x y) g = g.
Proof.
  intros H. apply Z.bits_inj'. intros n Hn.
  pose proof (f_equal (fun z => Z.testbit z n) H) as Hb. simpl in Hb.
  rewrite Z.land_spec in Hb. rewrite Z.land_spec, Z.lor_spec.
  destruct (Z.testbit x n), (Z.testbit y n), (Z.testbit g n); simpl in *; congruence.
Qed.

Lemma land_lor_0 (x y g : Z) :
  Z.land x g = 0 -> Z.land y g = 0 -> Z.land (Z.lor x y) g = 0.
Proof.
  intros Hx Hy. rewrite Z.land_lor_distr_l, Hx, Hy. reflexivity.
Qed.

End ModeBits.

(** X12: the two modes [open_getchr] derives on the WIN32C build, for
    flag values of [windows.h] that fit in 32 bits and do not overlap the
    flags the file clears.  The base mode has ENABLE_PROCESSED_INPUT set
    and ENABLE_VIRTUAL_TERMINAL_INPUT clear.  The mouse mode has
    ENABLE_MOUSE_INPUT, ENABLE_EXTENDED_FLAGS and ENABLE_PROCESSED_INPUT
    set and ENABLE_QUICK_EDIT_MODE and ENABLE_VIRTUAL_TERMINAL_INPUT
    clear.  The current mode after the open is the base mode. *)
Theorem derived_console_modes (B : Session.build) (S : Locator.system)
    (s : Session.state) :
  Session.MSDOS_COMPILER B = Session.WIN32C ->
  0 <= Session.ENABLE_PROCESSED_INPUT B < 2 ^ 32 ->
  0 <= Session.ENABLE_MOUSE_INPUT B < 2 ^ 32 ->
  Z.land (Session.ENABLE_PROCESSED_INPUT B)
         (Z.lor Session.ENABLE_VIRTUAL_TERMINAL_INPUT Session.ENABLE_QUICK_EDIT_MODE) = 0 ->
  Z.land (Session.ENABLE_MOUSE_INPUT B)
         (Z.lor Session.ENABLE_VIRTUAL_TERMINAL_INPUT Session.ENABLE_QUICK_EDIT_MODE) = 0 ->
  let s1 := Session.open_getchr B S s in
  let base := Session.base_console_input_mode s1 in
  let mouse := Session.mouse_console_input_mode s1 in
  Z.land base (Session.ENABLE_PROCESSED_INPUT B) = Session.ENABLE_PROCESSED_INPUT B
  /\ Z.land base Session.ENABLE_VIRTUAL_TERMINAL_INPUT = 0
  /\ Z.land mouse (Session.ENABLE_MOUSE_INPUT B) = Session.ENABLE_MOUSE_INPUT B
  /\ Z.land mouse Session.ENABLE_EXTENDED_FLAGS = Session.ENABLE_EXTENDED_FLAGS
  /\ Z.land mouse (Session.ENABLE_PROCESSED_INPUT B) = Session.ENABLE_PROCESSED_INPUT B
  /\ Z.land mouse Session.ENABLE_QUICK_EDIT_MODE = 0
  /\ Z.land mouse Session.ENABLE_VIRTUAL_TERMINAL_INPUT = 0
  /\ Session.curr_console_input_mode s1 = base.
Proof.
  intros HB HP HM HPd HMd s1 base mouse.
  assert (Hsplit : forall g, Z.land g (Z.lor 0x200 0x40) = 0 ->
                             Z.land g 0x200 = 0 /\ Z.land g 0x40 = 0).
  { intros g Hg. rewrite Z.land_lor_distr_r in Hg.
    apply Z.lor_eq_0_iff in Hg. exact Hg. }
  destruct (Hsplit _ HPd) as [HPv HPq]. destruct (Hsplit _ HMd) as [HMv HMq].
  set (init := fst (Session.GetConsoleMode (Session.tty (Session.set_tty
                 (fst (Session.CreateFile s)) (snd (Session.CreateFile s))))
                 (Session.init_console_input_mode s)
                 (Session.set_tty (fst (Session.CreateFile s))
                                  (snd (Session.CreateFile s))))).
  set (P := Session.ENABLE_PROCESSED_INPUT B) in *.
  set (M := Session.ENABLE_MOUSE_INPUT B) in *.
  assert (Hbase : base = Session.clear (Z.lor init P) Session.ENABLE_VIRTUAL_TERMINAL_INPUT).
  { subst base s1 init P. unfold Session.open_getchr. rewrite HB.
    unfold Session.CreateFile, Session.GetConsoleMode, Session.SetConsoleMode.
    destruct (Session.conin s) as [h|] eqn:Hc; simpl; rewrite ?Hc; simpl;
      repeat match goal with
             | |- context [if ?c then _ else _] => destruct c; simpl
             end; reflexivity. }
  assert (Hmouse : mouse = Session.clear
                     (Z.lor (Z.lor base M) Session.ENABLE_EXTENDED_FLAGS)
                     Session.ENABLE_QUICK_EDIT_MODE).
  { subst mouse base s1 M. unfold Session.open_getchr. rewrite HB.
    unfold Session.CreateFile, Session.GetConsoleMode, Session.SetConsoleMode.
    destruct (Session.conin s) as [h|] eqn:Hc; simpl; rewrite ?Hc; simpl;
      repeat match goal with
             | |- context [if ?c then _ else _] => destruct c; simpl
             end; reflexivity. }
  assert (Hcurr : Session.curr_console_input_mode s1 = base).
  { subst base s1. unfold Session.open_getchr. rewrite HB.
    unfold Session.CreateFile, Session.GetConsoleMode, Session.SetConsoleMode.
    destruct (Session.conin s) as [h|] eqn:Hc; simpl; rewrite ?Hc; simpl;
      repeat match goal with
             | |- context [if ?c then _ else _] => destruct c; simpl
             end; reflexivity. }
  assert (HbP : Z.land base P = P).
  { rewrite Hbase. apply clear_keeps; [exact HP | exact HPv | apply land_lor_r]. }
  assert (HbV : Z.land base Session.ENABLE_VIRTUAL_TERMINAL_INPUT = 0).
  { rewrite Hbase. apply clear_clears. }
  split; [exact HbP|]. split; [exact HbV|].
  split; [|split; [|split; [|split; [|split]]]]; try exact Hcurr; rewrite Hmouse.
  - apply clear_keeps; [exact HM | exact HMq |].
    apply land_lor_l, land_lor_r.
  - apply clear_keeps; [unfold Session.ENABLE_EXTENDED_FLAGS; lia | reflexivity |].
    apply land_lor_r.
  - apply clear_keeps; [exact HP | exact HPq |].
    apply land_lor_l, land_lor_l. exact HbP.
  - apply clear_clears.
  - apply clear_sets_nothing.
    apply land_lor_0; [apply land_lor_0; [exact HbV | exact HMv] | reflexivity].
Qed.

Lemma derived_console_modes_witness :
  let s1 := Session.open_getchr Session.win32 Session.no_system Session.console0 in
  Z.land (Session.base_console_input_mode s1) 1 = 1
  /\ Z.land (Session.base_console_input_mode s1) Session.ENABLE_VIRTUAL_TERMINAL_INPUT = 0
  /\ Z.land (Session.mouse_console_input_mode s1) 16 = 16.
Proof.
  cbv zeta.
  destruct (derived_console_modes Session.win32 Session.no_system Session.console0)
    as [H1 [H2 [H3 _]]].
  - reflexivity.
  - simpl. lia.
  - simpl. lia.
  - reflexivity.
  - reflexivity.
  - split; [exact H1|]. split; [exact H2 | exact H3].
Defined.

(** X13: [pclose] puts the console back into the current mode of the
    session.  On the WIN32C build with the console open, whatever mode a
    child process left the console in, after [pclose] the console has the
    mode [curr_console_input_mode] held before, and that variable and the
    mode captured at the open are unchanged. *)
Theorem pclose_reapplies_mode (B : Session.build) (S : Locator.system)
    (s : Session.state) (h : Z) (acts : list Session.action) (m : Z) :
  Session.MSDOS_COMPILER B = Session.WIN32C ->
  Session.conin s = Some h ->
  let s1 := Session.session acts (Session.open_getchr B S s) in
  let s2 := Session.pclose (Session.act (Session.AChildLeft m) s1) in
  Session.console_mode (Session.act (Session.AChildLeft m) s1) = m
  /\ Session.console_mode s2 = Session.curr_console_input_mode s1
  /\ Session.curr_console_input_mode s2 = Session.curr_console_input_mode s1
  /\ Session.init_console_input_mode s2 = Session.console_mode s.
Proof.
  intros HB Hh s1 s2.
  destruct (open_captures B S s h HB Hh) as [O1 [O2 [O3 [O4 _]]]].
  destruct (session_is_fixed acts (Session.open_getchr B S s)) as [F1 [F2 [F3 F4]]].
  fold s1 in F1, F2, F3, F4.
  assert (Hc : Session.is_console (Session.tty s1) s1 = true).
  { unfold Session.is_console. rewrite F4, O4, F3, O3, F1, O1, Z.eqb_refl. reflexivity. }
  split; [reflexivity|]. subst s2.
  unfold Session.pclose, Session.SetConsoleMode. simpl.
  assert (Hc' : Session.is_console (Session.tty s1)
             (Session.note Session.CPclose
                (Session.set_console m (Session.conin_open s1) s1)) = true) by exact Hc.
  rewrite Hc'. simpl. repeat split. congruence.
Qed.

Lemma pclose_reapplies_mode_witness :
  let s1 := Session.session [Session.ASetMode Session.ExtendedMode]
              (Session.open_getchr Session.win32 Session.no_system Session.console0) in
  Session.console_mode (Session.act (Session.AChildLeft 7) s1) = 7
  /\ Session.console_mode (Session.pclose (Session.act (Session.AChildLeft 7) s1))
     = 0x1B7.
Proof.
  cbv zeta.
  destruct (pclose_reapplies_mode Session.win32 Session.no_system Session.console0 100
              [Session.ASetMode Session.ExtendedMode] 7) as [H1 [H2 _]].
  - reflexivity.
  - reflexivity.
  - split; [exact H1 | rewrite H2; reflexivity].
Defined.

(** ** default_wheel_lines *)

(** X14: [default_wheel_lines] returns 1 on every build but WIN32C and
    whenever the system query fails.  On WIN32C, when the query succeeds,
    it returns 3 if the value stored is the page-scroll marker and the
    value stored (as an [int]) otherwise, which is the system's value
    whenever that fits an [int].  So, for a marker other than 1 and 3, it
    never returns the marker. *)
Theorem default_wheel_lines_never_marker (c : Session.compiler)
    (WHEEL_PAGESCROLL : Z) (spi : option Z) :
  Session.dword WHEEL_PAGESCROLL <> 1 ->
  Session.dword WHEEL_PAGESCROLL <> 3 ->
  let lines := Wheel.default_wheel_lines c WHEEL_PAGESCROLL spi in
  Session.dword lines <> Session.dword WHEEL_PAGESCROLL
  /\ (c <> Session.WIN32C -> lines = 1)
  /\ (spi = None -> lines = 1)
  /\ (forall v, c = Session.WIN32C -> spi = Some v ->
                Session.dword (Wheel.to_int v) = Session.dword WHEEL_PAGESCROLL ->
                lines = 3)
  /\ (forall v, c = Session.WIN32C -> spi = Some v ->
                Session.dword (Wheel.to_int v) <> Session.dword WHEEL_PAGESCROLL ->
                lines = Wheel.to_int v /\ (- 2 ^ 31 <= v < 2 ^ 31 -> lines = v)).
Proof.
  intros H1 H3 lines. subst lines. unfold Wheel.default_wheel_lines.
  assert (D1 : Session.dword 1 = 1) by reflexivity.
  assert (D3 : Session.dword 3 = 3) by reflexivity.
  assert (Hint : forall v, - 2 ^ 31 <= v < 2 ^ 31 -> Wheel.to_int v = v).
  { intros v Hv. unfold Wheel.to_int. rewrite Z.mod_small by lia. lia. }
  destruct c;
    try (split; [rewrite D1; congruence|];
         split; [reflexivity|]; split; [destruct spi; reflexivity|];
         split; intros v Hc; discriminate).
  destruct spi as [v|].
  - destruct (Z.eqb_spec (Session.dword (Wheel.to_int v)) (Session.dword WHEEL_PAGESCROLL))
      as [E|Hne].
    + split; [rewrite D3; congruence|].
      split; [intros H; contradiction|]. split; [discriminate|].
      split; [reflexivity|].
      intros u _ Hu Hneq. injection Hu as <-. contradiction.
    + split; [exact Hne|].
      split; [intros H; contradiction|]. split; [discriminate|].
      split.
      * intros u _ Hu Heq. injection Hu as <-. contradiction.
      * intros u _ Hu _. injection Hu as <-. split; [reflexivity | apply Hint].
  - split; [rewrite D1; congruence|].
    split; [reflexivity|]. split; [reflexivity|].
    split; intros v _ Hv; discriminate.
Qed.

Lemma default_wheel_lines_never_marker_witness :
  Session.dword (Wheel.default_wheel_lines Session.WIN32C (2 ^ 32 - 1) (Some (2 ^ 32 - 1)))
  <> Session.dword (2 ^ 32 - 1)
  /\ Wheel.default_wheel_lines Session.WIN32C (2 ^ 32 - 1) (Some (2 ^ 32 - 1)) = 3
  /\ Wheel.default_wheel_lines Session.WIN32C (2 ^ 32 - 1) (Some 5) = 5.
Proof.
  split; [|split].
  - apply (default_wheel_lines_never_marker Session.WIN32C (2 ^ 32 - 1)
             (Some (2 ^ 32 - 1))); vm_compute; discriminate.
  - destruct (default_wheel_lines_never_marker Session.WIN32C (2 ^ 32 - 1)
                (Some (2 ^ 32 - 1))) as [_ [_ [_ [H4 _]]]];
      [vm_compute; discriminate | vm_compute; discriminate |].
    apply (H4 (2 ^ 32 - 1)); reflexivity.
  - destruct (default_wheel_lines_never_marker Session.WIN32C (2 ^ 32 - 1) (Some 5))
      as [_ [_ [_ [_ H5]]]];
      [vm_compute; discriminate | vm_compute; discriminate |].
    destruct (H5 5) as [_ H]; [reflexivity | reflexivity | vm_compute; discriminate |].
    apply H. lia.
Defined.

(** ** getchr: more on composing calls *)

Lemma calls_app (B : build) (n m : nat) :
  forall w w', after B n w = Some w' ->
    calls B (n + m) w = calls B n w ++ calls B m w'
    /\ after B (n + m) w = after B m w'.
Proof.
  induction n as [|k IH]; intros w w' Ha; simpl in *.
  - injection Ha as <-. split; reflexivity.
  - destruct (getchr B w) as [v x|st x|x]; try discriminate.
    destruct (IH x w' Ha) as [H1 H2]. rewrite H1, H2. split; reflexivity.
Qed.

(** X15: a string without NUL cells in the alternate command source,
    with the newline flag set, is followed by exactly one '\n': one call
    more than the string has cells returns its characters and then 10,
    after which the cursor is NULL, the flag is 0 and nothing else has
    changed (no call to the outside was made). *)
Theorem dashp_string_then_newline (B : build) (w : world) (p : string) :
  active_dashp_command w = Some p ->
  no_nul p ->
  add_newline w <> 0 ->
  map value_of (calls B (String.length p + 1) w)
  = map (fun s => Some (fst s)) (cursor_steps p) ++ [Some 10]
  /\ after B (String.length p + 1) w
     = Some (set_add_newline 0 (set_active_dashp_command None w)).
Proof.
  intros Ha Hn Hnl.
  destruct (cursor_steps_calls B p w Ha Hn) as [H1 H2].
  destruct (calls_app B (String.length p) 1 w _ H2) as [C1 C2].
  assert (Hlast : getchr B (set_active_dashp_command (Some ""%string) w)
                  = Returned 10 (set_add_newline 0 (set_active_dashp_command None w))).
  { rewrite (dashp_end_newline B (set_active_dashp_command (Some ""%string) w)
               ""%string eq_refl eq_refl Hnl). reflexivity. }
  split.
  - rewrite C1, map_app, H1, map_map. simpl. rewrite Hlast. reflexivity.
  - rewrite C2. simpl. rewrite Hlast. reflexivity.
Qed.

Lemma dashp_string_then_newline_witness :
  let w := set_add_newline 1 (set_active_dashp_command (Some "q!"%string) (idle [] [] [])) in
  map value_of (calls macos 3 w) = [Some 113; Some 33; Some 10]
  /\ after macos 3 w = Some (set_add_newline 0 (set_active_dashp_command None w)).
Proof.
  cbv zeta.
  apply (dashp_string_then_newline macos
           (set_add_newline 1 (set_active_dashp_command (Some "q!"%string) (idle [] [] [])))
           "q!"%string).
  - reflexivity.
  - simpl. repeat split; vm_compute; discriminate.
  - simpl. lia.
Defined.

(** X16: the fallback is used only while [use_stderr], [is_tty] and
    [less_is_more] are all non-zero on an __APPLE__ build.  When one of
    them is not, a call neither polls nor reads standard error and leaves
    the statics of the fallback -- the flag included -- as they are: the
    fallback is passed over for this call, not switched off. *)
Theorem fallback_passed_over (B : build) (w : world) :
  stderr_wanted B w = false ->
  let w' := world_of (getchr B w) in
  use_stderr w' = use_stderr w
  /\ errpos w' = errpos w /\ errbuf_sz w' = errbuf_sz w /\ errbuf w' = errbuf w
  /\ poll_in w' = poll_in w /\ stderr_in w' = stderr_in w
  /\ (APPLE B = false \/ use_stderr w = false \/ is_tty w = 0 \/ less_is_more w = 0).
Proof.
  intros Hw w'. subst w'.
  assert (Hwhy : APPLE B = false \/ use_stderr w = false \/ is_tty w = 0
                 \/ less_is_more w = 0).
  { unfold stderr_wanted in Hw.
    destruct (APPLE B); [|left; reflexivity].
    destruct (use_stderr w); [|right; left; reflexivity].
    destruct (Z.eqb_spec (is_tty w) 0) as [E|_]; [right; right; left; exact E|].
    destruct (Z.eqb_spec (less_is_more w) 0) as [E|_]; [right; right; right; exact E|].
    discriminate. }
  assert (Hgoal : forall x, stderr_wanted B x = false ->
            use_stderr x = use_stderr w -> errpos x = errpos w ->
            errbuf_sz x = errbuf_sz w -> errbuf x = errbuf w ->
            poll_in x = poll_in w -> stderr_in x = stderr_in w ->
            let y := world_of (getchr_input B x) in
            use_stderr y = use_stderr w /\ errpos y = errpos w
            /\ errbuf_sz y = errbuf_sz w /\ errbuf y = errbuf w
            /\ poll_in y = poll_in w /\ stderr_in y = stderr_in w).
  { intros x Hx E1 E2 E3 E4 E5 E6 y. subst y.
    unfold getchr_input, getchr_stderr. rewrite Hx.
    destruct (loop_frame B (tty_in x) x) as [_ [_ [F3 [F4 F5]]]].
    destruct (loop_keeps_buffer B (tty_in x) x) as [K1 [K2 [K3 _]]].
    repeat split; congruence. }
  unfold getchr, getchr_dashp.
  destruct (active_dashp_command w) as [p|].
  - destruct (deref p =? NUL).
    + simpl. destruct (add_newline w =? 0).
      * destruct (Hgoal (set_active_dashp_command None
                           (set_active_dashp_command (Some (advance p)) w)))
          as [G1 [G2 [G3 [G4 [G5 G6]]]]]; try reflexivity; try exact Hw.
        repeat split; assumption.
      * simpl. repeat split. exact Hwhy.
    + simpl. repeat split. exact Hwhy.
  - destruct (Hgoal w Hw) as [G1 [G2 [G3 [G4 [G5 G6]]]]]; try reflexivity.
    repeat split; assumption.
Qed.

Lemma fallback_passed_over_witness :
  let w := set_use_stderr true (keyboard [{| ir_result := 1; ir_uc := x71 |}]) in
  use_stderr (world_of (getchr {| APPLE := false; LESSTEST := false; READ_INTR := -2;
                                  C_EOF := -1; QUIT_ERROR := 1; POLLRDNORM := 64;
                                  LESS_DUMP_CHAR := 29 |} w)) = true.
Proof.
  cbv zeta.
  apply (fallback_passed_over
           {| APPLE := false; LESSTEST := false; READ_INTR := -2; C_EOF := -1;
              QUIT_ERROR := 1; POLLRDNORM := 64; LESS_DUMP_CHAR := 29 |}
           (set_use_stderr true (keyboard [{| ir_result := 1; ir_uc := x71 |}]))).
  reflexivity.
Defined.
